(** * homebridge-melcloud-home: the fan-speed and swing accessories

    A shallow embedding of [src/fan-speed-fan.ts] (class [FanSpeedFan]) and of
    the swing accessory (class [SwingFan]), and the properties of the
    synchronisation and mapping logic that the specification states.

    Conventions of the embedding.
    - A JavaScript [number] is a rational ([Q]); every finite double is one,
      and [===] and [<=] on finite doubles are [Qeq_bool] and [Qle_bool].
      [NaN] and the infinities are not represented.
    - A JavaScript string is a [string]; [toLowerCase] acts on the ASCII
      letters, which are the only letters of the literals the code compares
      with.  Other code units are left as they are.
    - A property read on the parsed settings object is an [option string]:
      [None] is [undefined].
    - The accessory methods are computations in a state-and-exception monad
      that also records the calls made to the collaborators (remote API,
      bridge service, scheduler, logger) as a trace of events.  An [await]
      is sequential composition: the interleaving of other callbacks during
      a pending remote call is not modelled. *)

From stdpp Require Import gmap strings list fin_maps.
From Stdlib Require Import Ascii QArith Lqa.

Set Default Proof Using "Type".

(* ===================================================================== *)
(** * Strings and values *)
(* ===================================================================== *)

(** [String.prototype.toLowerCase] on one ASCII code unit. *)
Definition lower_ascii (c : ascii) : ascii :=
  let n := N_of_ascii c in
  if ((65 <=? n) && (n <=? 90))%N then ascii_of_N (n + 32) else c.

Fixpoint toLowerCase (s : string) : string :=
  match s with
  | EmptyString => EmptyString
  | String c r => String (lower_ascii c) (toLowerCase r)
  end.

(** Two strings that differ only in the case of their letters, compared
    character by character. *)
Fixpoint case_variant (s t : string) : bool :=
  match s, t with
  | EmptyString, EmptyString => true
  | String a s', String b t' =>
      Ascii.eqb (lower_ascii a) (lower_ascii b) && case_variant s' t'
  | _, _ => false
  end.

(** [x === 'literal'] where [x] was read from an object and may be
    [undefined]. *)
Definition str_eq (x : option string) (lit : string) : bool :=
  match x with
  | Some s => String.eqb s lit
  | None => false
  end.

Infix "===" := str_eq (at level 70, no associativity).

(** A HAP characteristic value, as far as the accessories handle it. *)
Inductive CharacteristicValue :=
| CNumber (q : Q)
| CBoolean (b : bool)
| CString (s : string).

(** [Characteristic.Active.ACTIVE] and [INACTIVE] of the HAP definitions. *)
Definition ACTIVE : Q := 1%Q.
Definition INACTIVE : Q := 0%Q.

(** [v === n] for a characteristic value [v] and a number [n]. *)
Definition value_is (v : CharacteristicValue) (n : Q) : bool :=
  match v with
  | CNumber q => Qeq_bool q n
  | _ => false
  end.

(** [n !== current] where [current] is the [value] of a characteristic,
    which may be [null]. *)
Definition differs (n : Q) (current : option CharacteristicValue) : bool :=
  match current with
  | Some v => negb (value_is v n)
  | None => true
  end.

(* ===================================================================== *)
(** * The speed levels (vocabulary of the specification) *)
(* ===================================================================== *)

(** The ordered domain of levels of the data model.  The code has no such
    type: it works on the names.  It is used to state the properties. *)
Inductive SpeedLevel := Auto | One | Two | Three | Four | Five.

Definition levelName (l : SpeedLevel) : string :=
  match l with
  | Auto => "Auto" | One => "One" | Two => "Two"
  | Three => "Three" | Four => "Four" | Five => "Five"
  end.

Definition levelAlias (l : SpeedLevel) : string :=
  match l with
  | Auto => "0" | One => "1" | Two => "2"
  | Three => "3" | Four => "4" | Five => "5"
  end.

Definition levelIndex (l : SpeedLevel) : Z :=
  match l with
  | Auto => 0 | One => 1 | Two => 2 | Three => 3 | Four => 4 | Five => 5
  end.

(** The level a raw speed string stands for, as the specification reads
    it: the name in any case, or the numeric alias, and [Auto] for anything
    else. *)
Definition parseLevel (raw : string) : SpeedLevel :=
  let hit l := String.eqb (toLowerCase raw) (toLowerCase (levelName l))
               || String.eqb raw (levelAlias l) in
  if hit One then One else if hit Two then Two else if hit Three then Three
  else if hit Four then Four else if hit Five then Five else Auto.

(* ===================================================================== *)
(** * The remote API ([melcloud-api], of which only the uses are in the
      sources) *)
(* ===================================================================== *)

Module MELCloudAPI.

(** One entry of the flat settings list of a device. *)
Record Setting := { name : string; value : string }.

(** The fields of [AirToAirUnit] that the accessories use. *)
Record AirToAirUnit := {
  id : string;
  givenDisplayName : string;
  connectedInterfaceIdentifier : string;
  settings : list Setting;
}.

(** Modelled from the spec: [MELCloudAPI.parseSettings], which is not
    among the sources.  The specification describes the settings as a
    flat name/value list with linear lookup, read into a mapping from
    field name to string value; the first entry of a name is the one
    found. *)
Definition parseSettings (l : list Setting) : gmap string string :=
  list_to_map ((λ s, (name s, value s)) <$> l).

(** The argument of [controlDevice].  [setTemperature] carries the text
    given to [Number.parseFloat]: the parsing of decimal text to a double
    is not modelled.  The last two fields are always [null]. *)
Record ControlCommand := {
  power : bool;
  operationMode : option string;
  setFanSpeed : option string;
  vaneHorizontalDirection : option string;
  vaneVerticalDirection : option string;
  setTemperature : option string;
  temperatureIncrementOverride : option Q;
  inStandbyMode : option bool;
}.

End MELCloudAPI.

(* ===================================================================== *)
(** * Effects: accessory state, exceptions and the trace of calls *)
(* ===================================================================== *)

Inductive HAPStatus := SERVICE_COMMUNICATION_FAILURE.

Inductive Exception :=
| RemoteError (msg : string)        (* what a failed [controlDevice] rejects with *)
| TypeError                         (* a method call on [undefined] *)
| HapStatusError (status : HAPStatus).

Inductive Characteristic := Active | RotationSpeed.

Inductive LogLevel := LogInfo | LogDebug | LogError.

(** The calls an accessory makes to its collaborators.  The text of a log
    line is not modelled. *)
Inductive Event :=
| ControlDevice (deviceId : string) (cmd : MELCloudAPI.ControlCommand)
| UpdateCharacteristic (c : Characteristic) (v : Q)
| ScheduleRefresh
| Log (lvl : LogLevel).

(** The platform, as far as the methods depend on it: whether a remote
    control call resolves ([None]) or rejects with an error. *)
Record Platform := {
  controlDevice : string → MELCloudAPI.ControlCommand → option Exception;
}.

(** The [value] of the characteristics of the [Fanv2] service, the
    published state. *)
Record Service := {
  Active_value : option CharacteristicValue;
  RotationSpeed_value : option CharacteristicValue;
}.

(** The state of one accessory object.  [this.device] and
    [accessory.context.device] hold the same reference from the constructor
    on (both are assigned together), so one field stands for both. *)
Record Accessory := {
  device : MELCloudAPI.AirToAirUnit;
  service : Service;
}.

Inductive Outcome (A : Type) :=
| Returned (a : A)
| Thrown (e : Exception).
Arguments Returned {A} a.
Arguments Thrown {A} e.

Record Run (A : Type) := {
  outcome : Outcome A;
  final : Accessory;
  trace : list Event;
}.
Arguments outcome {A} r.
Arguments final {A} r.
Arguments trace {A} r.

Definition M (A : Type) : Type := Platform → Accessory → Run A.

#[global] Instance M_ret : MRet M :=
  λ A (a : A) _ st, {| outcome := Returned a; final := st; trace := [] |}.

Definition throw {A} (e : Exception) : M A :=
  λ _ st, {| outcome := Thrown e; final := st; trace := [] |}.

(** Sequencing: an exception stops the rest; the state reached and the
    calls made so far stay. *)
#[global] Instance M_bind : MBind M :=
  λ A B (k : A → M B) (m : M A) pf st,
    let r := m pf st in
    match outcome r with
    | Returned a =>
        let r' := k a pf (final r) in
        {| outcome := outcome r'; final := final r';
           trace := trace r ++ trace r' |}
    | Thrown e => {| outcome := Thrown e; final := final r; trace := trace r |}
    end.

(** [try { body } catch (error) { handler }]. *)
Definition try_catch {A} (body : M A) (handler : Exception → M A) : M A :=
  λ pf st,
    let r := body pf st in
    match outcome r with
    | Returned a => r
    | Thrown e =>
        let r' := handler e pf (final r) in
        {| outcome := outcome r'; final := final r';
           trace := trace r ++ trace r' |}
    end.

Definition gets {A} (f : Accessory → A) : M A :=
  λ _ st, {| outcome := Returned (f st); final := st; trace := [] |}.

Definition modify (f : Accessory → Accessory) : M unit :=
  λ _ st, {| outcome := Returned tt; final := f st; trace := [] |}.

Definition emit (e : Event) : M unit :=
  λ _ st, {| outcome := Returned tt; final := st; trace := [e] |}.

Definition when (b : bool) (m : M unit) : M unit :=
  if b then m else mret tt.

(** A call [f(x)] of a function whose body starts with a method call on
    [x]: a [TypeError] when [x] is [undefined]. *)
Definition call_on {A} (f : string → A) (x : option string) : M A :=
  match x with
  | Some s => mret (f s)
  | None => throw TypeError
  end.

(** [await this.platform.getAPI().controlDevice(id, cmd)]. *)
Definition await_controlDevice (deviceId : string)
    (cmd : MELCloudAPI.ControlCommand) : M unit :=
  λ pf st,
    {| outcome := match controlDevice pf deviceId cmd with
                  | None => Returned tt
                  | Some e => Thrown e
                  end;
       final := st;
       trace := [ControlDevice deviceId cmd] |}.

(** [this.service.updateCharacteristic(c, v)]: the bridge stores the value
    and notifies. *)
Definition updateCharacteristic (c : Characteristic) (v : Q) : M unit :=
  modify (λ st,
    {| device := device st;
       service :=
         match c with
         | Active =>
             {| Active_value := Some (CNumber v);
                RotationSpeed_value := RotationSpeed_value (service st) |}
         | RotationSpeed =>
             {| Active_value := Active_value (service st);
                RotationSpeed_value := Some (CNumber v) |}
         end |}) ;;
  emit (UpdateCharacteristic c v).

(** [this.device.settings = updatedSettings]. *)
Definition assign_device_settings (l : list MELCloudAPI.Setting) : M unit :=
  modify (λ st,
    {| device :=
         {| MELCloudAPI.id := MELCloudAPI.id (device st);
            MELCloudAPI.givenDisplayName :=
              MELCloudAPI.givenDisplayName (device st);
            MELCloudAPI.connectedInterfaceIdentifier :=
              MELCloudAPI.connectedInterfaceIdentifier (device st);
            MELCloudAPI.settings := l |};
       service := service st |}).

(** [{ ...setting, value: v }]. *)
Definition with_value (setting : MELCloudAPI.Setting) (v : string)
    : MELCloudAPI.Setting :=
  {| MELCloudAPI.name := MELCloudAPI.name setting; MELCloudAPI.value := v |}.

(** The characteristic publishes and the remote commands of a trace. *)
Definition publishes (t : list Event) : list (Characteristic * Q) :=
  omap (λ e, match e with
             | UpdateCharacteristic c v => Some (c, v)
             | _ => None
             end) t.

Definition commands (t : list Event) : list (string * MELCloudAPI.ControlCommand) :=
  omap (λ e, match e with
             | ControlDevice i c => Some (i, c)
             | _ => None
             end) t.

(* ===================================================================== *)
(** * [FanSpeedFan] ([src/fan-speed-fan.ts]) *)
(* ===================================================================== *)

Module FanSpeedFan.

Definition SPEED_COUNT : Z := 5.

Definition percentageToFanSpeed (percentage : Q) : string :=
  if Qeq_bool percentage 0 then "Auto"
  else if Qle_bool percentage 20 then "One"
  else if Qle_bool percentage 40 then "Two"
  else if Qle_bool percentage 60 then "Three"
  else if Qle_bool percentage 80 then "Four"
  else "Five".

Definition fanSpeedToPercentage (fanSpeed : string) : Q :=
  let normalizedSpeed := toLowerCase fanSpeed in
  if String.eqb normalizedSpeed "auto" || String.eqb normalizedSpeed "0" then 0
  else if String.eqb normalizedSpeed "one" || String.eqb normalizedSpeed "1" then 20
  else if String.eqb normalizedSpeed "two" || String.eqb normalizedSpeed "2" then 40
  else if String.eqb normalizedSpeed "three" || String.eqb normalizedSpeed "3" then 60
  else if String.eqb normalizedSpeed "four" || String.eqb normalizedSpeed "4" then 80
  else if String.eqb normalizedSpeed "five" || String.eqb normalizedSpeed "5" then 100
  else 0.

(** The properties the constructor declares for [RotationSpeed]. *)
Record Props := { minValue : Q; maxValue : Q; minStep : Q }.

Definition RotationSpeed_props : Props :=
  {| minValue := 0; maxValue := 100; minStep := 20 |}.

Definition getSettings : M (gmap string string) :=
  gets (λ st, MELCloudAPI.parseSettings (MELCloudAPI.settings (device st))).

Definition getActive : M Q :=
  settings ← getSettings;
  let isPowerOn := (settings !! "Power") === "True" in
  let fanSpeed := settings !! "SetFanSpeed" in
  let isAuto := (fanSpeed === "Auto") || (fanSpeed === "0") in
  let isActive := isPowerOn && negb isAuto in
  emit (Log LogDebug) ;;
  mret (if isActive then ACTIVE else INACTIVE).

Definition getRotationSpeed : M Q :=
  settings ← getSettings;
  let fanSpeed := settings !! "SetFanSpeed" in
  percentage ← call_on fanSpeedToPercentage fanSpeed;
  emit (Log LogDebug) ;;
  mret percentage.

Definition updateFromDevice (dev : MELCloudAPI.AirToAirUnit) : M unit :=
  modify (λ st, {| device := dev; service := service st |}) ;;
  settings ← getSettings;
  let isPowerOn := (settings !! "Power") === "True" in
  let fanSpeed := settings !! "SetFanSpeed" in
  let isAuto := (fanSpeed === "Auto") || (fanSpeed === "0") in
  let isActive := isPowerOn && negb isAuto in
  percentage ← call_on fanSpeedToPercentage fanSpeed;
  currentActive ← gets (λ st, Active_value (service st));
  let targetActive := if isActive then ACTIVE else INACTIVE in
  when (differs targetActive currentActive)
    (emit (Log LogDebug) ;;
     updateCharacteristic Active targetActive) ;;
  currentSpeed ← gets (λ st, RotationSpeed_value (service st));
  when (differs percentage currentSpeed)
    (emit (Log LogDebug) ;;
     updateCharacteristic RotationSpeed percentage).

Definition setFanSpeed (fanSpeed : string) : M unit :=
  settings ← getSettings;
  emit (Log LogDebug) ;;
  try_catch
    (deviceId ← gets (λ st, MELCloudAPI.id (device st));
     await_controlDevice deviceId
       {| MELCloudAPI.power := true;
          MELCloudAPI.operationMode := settings !! "OperationMode";
          MELCloudAPI.setFanSpeed := Some fanSpeed;
          MELCloudAPI.vaneHorizontalDirection := settings !! "VaneHorizontalDirection";
          MELCloudAPI.vaneVerticalDirection := settings !! "VaneVerticalDirection";
          MELCloudAPI.setTemperature := settings !! "SetTemperature";
          MELCloudAPI.temperatureIncrementOverride := None;
          MELCloudAPI.inStandbyMode := None |} ;;
     current ← gets (λ st, MELCloudAPI.settings (device st));
     let updatedSettings :=
       (λ setting,
          if String.eqb (MELCloudAPI.name setting) "SetFanSpeed"
          then with_value setting fanSpeed
          else if String.eqb (MELCloudAPI.name setting) "Power"
          then with_value setting "True"
          else setting) <$> current in
     assign_device_settings updatedSettings ;;
     dev ← gets device;
     updateFromDevice dev ;;
     emit ScheduleRefresh)
    (λ error,
       emit (Log LogError) ;;
       throw (HapStatusError SERVICE_COMMUNICATION_FAILURE)).

Definition setActive (value : CharacteristicValue) : M unit :=
  let isActive := value_is value ACTIVE in
  emit (Log LogInfo) ;;
  if isActive then setFanSpeed "Five" else setFanSpeed "Auto".

(** [value as number]: the bridge hands a number to the handler of a
    numeric characteristic. *)
Definition setRotationSpeed (value : Q) : M unit :=
  let percentage := value in
  let fanSpeed := percentageToFanSpeed percentage in
  emit (Log LogInfo) ;;
  setFanSpeed fanSpeed.

End FanSpeedFan.

(* ===================================================================== *)
(** * [SwingFan] (the swing accessory) *)
(* ===================================================================== *)

Module SwingFan.

Definition getSettings : M (gmap string string) :=
  gets (λ st, MELCloudAPI.parseSettings (MELCloudAPI.settings (device st))).

Definition normalizeVane (vane : string) : string :=
  let normalized := toLowerCase vane in
  if String.eqb normalized "0" || String.eqb normalized "auto" then "auto"
  else if String.eqb normalized "6" || String.eqb normalized "six"
          || String.eqb normalized "7" || String.eqb normalized "swing"
  then "swing"
  else normalized.

Definition getActive : M Q :=
  settings ← getSettings;
  let isPowerOn := (settings !! "Power") === "True" in
  vaneMode ← call_on normalizeVane (settings !! "VaneVerticalDirection");
  let isSwing := String.eqb vaneMode "swing" in
  let isActive := isPowerOn && isSwing in
  emit (Log LogDebug) ;;
  mret (if isActive then ACTIVE else INACTIVE).

Definition updateFromDevice (dev : MELCloudAPI.AirToAirUnit) : M unit :=
  modify (λ st, {| device := dev; service := service st |}) ;;
  settings ← getSettings;
  let isPowerOn := (settings !! "Power") === "True" in
  vaneMode ← call_on normalizeVane (settings !! "VaneVerticalDirection");
  let isSwing := String.eqb vaneMode "swing" in
  let isActive := isPowerOn && isSwing in
  currentActive ← gets (λ st, Active_value (service st));
  let targetActive := if isActive then ACTIVE else INACTIVE in
  when (differs targetActive currentActive)
    (emit (Log LogDebug) ;;
     updateCharacteristic Active targetActive).

Definition setVanePosition (vaneDirection : string) : M unit :=
  settings ← getSettings;
  emit (Log LogInfo) ;;
  try_catch
    (deviceId ← gets (λ st, MELCloudAPI.id (device st));
     await_controlDevice deviceId
       {| MELCloudAPI.power := (settings !! "Power") === "True";
          MELCloudAPI.operationMode := settings !! "OperationMode";
          MELCloudAPI.setFanSpeed := settings !! "SetFanSpeed";
          MELCloudAPI.vaneHorizontalDirection := settings !! "VaneHorizontalDirection";
          MELCloudAPI.vaneVerticalDirection := Some vaneDirection;
          MELCloudAPI.setTemperature := settings !! "SetTemperature";
          MELCloudAPI.temperatureIncrementOverride := None;
          MELCloudAPI.inStandbyMode := None |} ;;
     current ← gets (λ st, MELCloudAPI.settings (device st));
     let updatedSettings :=
       (λ setting,
          if String.eqb (MELCloudAPI.name setting) "VaneVerticalDirection"
          then with_value setting vaneDirection
          else setting) <$> current in
     assign_device_settings updatedSettings ;;
     dev ← gets device;
     updateFromDevice dev ;;
     emit ScheduleRefresh)
    (λ error,
       emit (Log LogError) ;;
       throw (HapStatusError SERVICE_COMMUNICATION_FAILURE)).

Definition setActive (value : CharacteristicValue) : M unit :=
  let isActive := value_is value ACTIVE in
  emit (Log LogInfo) ;;
  if isActive then setVanePosition "Swing" else setVanePosition "Auto".

End SwingFan.

(* ===================================================================== *)
(** * Vocabulary of the statements *)
(* ===================================================================== *)

(** The definitions of this part are not the code: they name what the
    statements speak about.  Where one describes what a method does
    ([fan_command], [fan_entry], [sync_trace], [after_write], ...), a lemma
    on the run of the method proves that the method does just that. *)

(** The level a name of the code stands for (exact spelling). *)
Definition levelOfName (s : string) : option SpeedLevel :=
  if String.eqb s "Auto" then Some Auto
  else if String.eqb s "One" then Some One
  else if String.eqb s "Two" then Some Two
  else if String.eqb s "Three" then Some Three
  else if String.eqb s "Four" then Some Four
  else if String.eqb s "Five" then Some Five
  else None.

(** The percentage of a level: its ordinal index times twenty. *)
Definition levelPercentage (l : SpeedLevel) : Q := inject_Z (levelIndex l * 20).

(** A value a numeric characteristic with properties [p] accepts: within
    the range, and a whole number of steps above the minimum. *)
Definition on_grid (p : FanSpeedFan.Props) (v : Q) : Prop :=
  (FanSpeedFan.minValue p <= v)%Q ∧ (v <= FanSpeedFan.maxValue p)%Q ∧
  ∃ k : Z, (0 ≤ k)%Z ∧ (v == FanSpeedFan.minValue p + inject_Z k * FanSpeedFan.minStep p)%Q.

(** A character that [toLowerCase] never produces from a different one. *)
Definition not_lower_letter (d : ascii) : bool :=
  let n := N_of_ascii d in ((n <? 97) || (122 <? n))%N.

(** [new] is [old] with the value of every entry named [field] replaced by
    [v], and nothing else changed. *)
Definition only_field_replaced (field v : string)
    (old new : list MELCloudAPI.Setting) : Prop :=
  Forall2 (λ o n,
    MELCloudAPI.name n = MELCloudAPI.name o ∧
    MELCloudAPI.value n =
      if String.eqb (MELCloudAPI.name o) field then v else MELCloudAPI.value o)
    old new.

(** The cached update of the fan variant, entry by entry. *)
Definition fan_fields_replaced (fanSpeed : string)
    (old new : list MELCloudAPI.Setting) : Prop :=
  Forall2 (λ o n,
    MELCloudAPI.name n = MELCloudAPI.name o ∧
    MELCloudAPI.value n =
      if String.eqb (MELCloudAPI.name o) "SetFanSpeed" then fanSpeed
      else if String.eqb (MELCloudAPI.name o) "Power" then "True"
      else MELCloudAPI.value o)
    old new.

(** The device with another settings list. *)
Definition with_settings (d : MELCloudAPI.AirToAirUnit)
    (l : list MELCloudAPI.Setting) : MELCloudAPI.AirToAirUnit :=
  {| MELCloudAPI.id := MELCloudAPI.id d;
     MELCloudAPI.givenDisplayName := MELCloudAPI.givenDisplayName d;
     MELCloudAPI.connectedInterfaceIdentifier :=
       MELCloudAPI.connectedInterfaceIdentifier d;
     MELCloudAPI.settings := l |}.

(** Every remote call of a trace was rejected, or every one was accepted,
    by the platform. *)
Definition remote_calls_fail (pf : Platform) (t : list Event) : Prop :=
  ∀ i cmd, (i, cmd) ∈ commands t → controlDevice pf i cmd ≠ None.

Definition remote_calls_succeed (pf : Platform) (t : list Event) : Prop :=
  ∀ i cmd, (i, cmd) ∈ commands t → controlDevice pf i cmd = None.

(** The value the fan variant derives for [Active] from parsed settings. *)
Definition fan_target (parsed : gmap string string) : Q :=
  if ((parsed !! "Power") === "True")
     && negb (((parsed !! "SetFanSpeed") === "Auto")
              || ((parsed !! "SetFanSpeed") === "0"))
  then ACTIVE else INACTIVE.

(** The value the swing variant derives for [Active], given the vane
    direction that was read. *)
Definition swing_target (parsed : gmap string string) (vane : string) : Q :=
  if ((parsed !! "Power") === "True")
     && String.eqb (SwingFan.normalizeVane vane) "swing"
  then ACTIVE else INACTIVE.

(** One step of CharacteristicSync: publish [target] unless it is the
    current value. *)
Definition sync_trace (c : Characteristic) (target : Q)
    (current : option CharacteristicValue) : list Event :=
  if differs target current
  then [Log LogDebug; UpdateCharacteristic c target] else [].

Definition sync_value (target : Q) (current : option CharacteristicValue)
    : option CharacteristicValue :=
  if differs target current then Some (CNumber target) else current.

(** The command the fan variant sends for a speed, from parsed settings. *)
Definition fan_command (parsed : gmap string string) (fanSpeed : string)
    : MELCloudAPI.ControlCommand :=
  {| MELCloudAPI.power := true;
     MELCloudAPI.operationMode := parsed !! "OperationMode";
     MELCloudAPI.setFanSpeed := Some fanSpeed;
     MELCloudAPI.vaneHorizontalDirection := parsed !! "VaneHorizontalDirection";
     MELCloudAPI.vaneVerticalDirection := parsed !! "VaneVerticalDirection";
     MELCloudAPI.setTemperature := parsed !! "SetTemperature";
     MELCloudAPI.temperatureIncrementOverride := None;
     MELCloudAPI.inStandbyMode := None |}.

(** The command the swing variant sends for a vane direction. *)
Definition swing_command (parsed : gmap string string) (vaneDirection : string)
    : MELCloudAPI.ControlCommand :=
  {| MELCloudAPI.power := (parsed !! "Power") === "True";
     MELCloudAPI.operationMode := parsed !! "OperationMode";
     MELCloudAPI.setFanSpeed := parsed !! "SetFanSpeed";
     MELCloudAPI.vaneHorizontalDirection := parsed !! "VaneHorizontalDirection";
     MELCloudAPI.vaneVerticalDirection := Some vaneDirection;
     MELCloudAPI.setTemperature := parsed !! "SetTemperature";
     MELCloudAPI.temperatureIncrementOverride := None;
     MELCloudAPI.inStandbyMode := None |}.

(** The entry-wise update of the cache after a write, for each variant. *)
Definition fan_entry (fanSpeed : string) (setting : MELCloudAPI.Setting)
    : MELCloudAPI.Setting :=
  if String.eqb (MELCloudAPI.name setting) "SetFanSpeed"
  then with_value setting fanSpeed
  else if String.eqb (MELCloudAPI.name setting) "Power"
  then with_value setting "True"
  else setting.

Definition swing_entry (vaneDirection : string) (setting : MELCloudAPI.Setting)
    : MELCloudAPI.Setting :=
  if String.eqb (MELCloudAPI.name setting) "VaneVerticalDirection"
  then with_value setting vaneDirection
  else setting.

(** The run of a try block that made its remote call: what the write adds
    around the run [r] of its reconciliation. *)
Definition after_write (before : list Event) (r : Run unit) : Run unit :=
  match outcome r with
  | Returned _ =>
      {| outcome := Returned tt; final := final r;
         trace := before ++ trace r ++ [ScheduleRefresh] |}
  | Thrown _ =>
      {| outcome := Thrown (HapStatusError SERVICE_COMMUNICATION_FAILURE);
         final := final r;
         trace := before ++ trace r ++ [Log LogError] |}
  end.

(** A run with some calls made before it. *)
Definition prepend {A} (t : list Event) (r : Run A) : Run A :=
  {| outcome := outcome r; final := final r; trace := t ++ trace r |}.

(** The bucket of a level, upper bound included. *)
Definition in_bucket (l : SpeedLevel) (p : Q) : Prop :=
  match l with
  | Auto => (p == 0)%Q
  | One => (0 < p)%Q ∧ (p <= 20)%Q
  | Two => (20 < p)%Q ∧ (p <= 40)%Q
  | Three => (40 < p)%Q ∧ (p <= 60)%Q
  | Four => (60 < p)%Q ∧ (p <= 80)%Q
  | Five => (80 < p)%Q ∧ (p <= 100)%Q
  end.

(** Concrete units and platforms for the examples. *)
Definition setting (n v : string) : MELCloudAPI.Setting :=
  {| MELCloudAPI.name := n; MELCloudAPI.value := v |}.

Definition unit_with (pow speed vane : string) : Accessory :=
  {| device :=
       {| MELCloudAPI.id := "unit-1";
          MELCloudAPI.givenDisplayName := "Living room";
          MELCloudAPI.connectedInterfaceIdentifier := "if-1";
          MELCloudAPI.settings :=
            [setting "Power" pow; setting "OperationMode" "Heat";
             setting "SetFanSpeed" speed;
             setting "VaneHorizontalDirection" "Auto";
             setting "VaneVerticalDirection" vane;
             setting "SetTemperature" "21.5"] |};
     service := {| Active_value := Some (CNumber 0);
                   RotationSpeed_value := Some (CNumber 0) |} |}.

Definition platform_accepting : Platform :=
  {| controlDevice := λ _ _, None |}.

Definition platform_rejecting : Platform :=
  {| controlDevice := λ _ _, Some (RemoteError "timeout") |}.

(** The last published value of a characteristic. *)
Definition published (svc : Service) (c : Characteristic)
    : option CharacteristicValue :=
  match c with
  | Active => Active_value svc
  | RotationSpeed => RotationSpeed_value svc
  end.

(** The number of refresh requests of a trace. *)
Definition refreshes (t : list Event) : nat :=
  length (omap (λ e, match e with ScheduleRefresh => Some tt | _ => None end) t).

(** The value the fan variant derives for [Active] right after it wrote
    the speed [v]: the cached Power entry, when there is one, then holds
    "True". *)
Definition fan_written_target (parsed : gmap string string) (v : string) : Q :=
  if (match parsed !! "Power" with Some _ => true | None => false end)
     && negb (String.eqb v "Auto" || String.eqb v "0")
  then ACTIVE else INACTIVE.

(** The labels the constructors give to the bridge (template strings of
    the constructors of [FanSpeedFan] and [SwingFan]). *)
Definition FanSpeedFan_SerialNumber (d : MELCloudAPI.AirToAirUnit) : string :=
  String.append (MELCloudAPI.connectedInterfaceIdentifier d) "-fan-control".

Definition FanSpeedFan_Name (d : MELCloudAPI.AirToAirUnit) : string :=
  String.append (MELCloudAPI.givenDisplayName d) " Fan".

Definition SwingFan_SerialNumber (d : MELCloudAPI.AirToAirUnit) : string :=
  String.append (MELCloudAPI.connectedInterfaceIdentifier d) "-swing-control".

Definition SwingFan_Name (d : MELCloudAPI.AirToAirUnit) : string :=
  String.append (MELCloudAPI.givenDisplayName d) " Swing".

(** A unit whose settings list has no SetFanSpeed and no
    VaneVerticalDirection entry. *)
Definition unit_partial (pow : string) : Accessory :=
  {| device :=
       {| MELCloudAPI.id := "unit-2";
          MELCloudAPI.givenDisplayName := "Attic";
          MELCloudAPI.connectedInterfaceIdentifier := "if-2";
          MELCloudAPI.settings :=
            [setting "Power" pow; setting "OperationMode" "Cool";
             setting "SetTemperature" "24"] |};
     service := {| Active_value := Some (CNumber 1);
                   RotationSpeed_value := None |} |}.

(* ===================================================================== *)
(** * Strings *)
(* ===================================================================== *)

Lemma case_variant_lower (s t : string) :
  case_variant s t = true ↔ toLowerCase s = toLowerCase t.
Proof.
  revert t. induction s as [|a s IH]; intros [|b t]; simpl; try (split; congruence).
  rewrite andb_true_iff, Ascii.eqb_eq, IH. split.
  - intros [-> ->]. reflexivity.
  - intros H. injection H as H1 H2. auto.
Qed.

Lemma lower_ascii_fixed (c d : ascii) :
  lower_ascii c = d → not_lower_letter d = true → c = d.
Proof.
  intros <-. destruct c as [[] [] [] [] [] [] [] []]; vm_compute; congruence.
Qed.

Lemma toLowerCase_single (s : string) (d : ascii) :
  not_lower_letter d = true → toLowerCase s = String d EmptyString →
  s = String d EmptyString.
Proof.
  intros Hd. destruct s as [|c [|c' s]]; simpl; try congruence.
  intros H. injection H as H. f_equal. by apply lower_ascii_fixed.
Qed.

Lemma toLowerCase_idem (s : string) : toLowerCase (toLowerCase s) = toLowerCase s.
Proof.
  induction s as [|c s IH]; simpl; [done|]. f_equal; [|done].
  destruct c as [[] [] [] [] [] [] [] []]; reflexivity.
Qed.

(** Case analysis on every string test of the goal. *)
Ltac string_cases :=
  repeat match goal with
  | |- context [String.eqb ?a ?b] =>
      let E := fresh "E" in
      destruct (String.eqb a b) eqn:E;
      [apply String.eqb_eq in E | apply String.eqb_neq in E]; simpl
  end.

(** Case analysis on every number test of the goal. *)
Ltac number_cases :=
  repeat match goal with
  | |- context [Qeq_bool ?a ?b] =>
      let E := fresh "E" in
      destruct (Qeq_bool a b) eqn:E;
      [apply Qeq_bool_iff in E | apply Qeq_bool_neq in E]
  | |- context [Qle_bool ?a ?b] =>
      let E := fresh "E" in
      destruct (Qle_bool a b) eqn:E;
      [apply Qle_bool_iff in E
      |apply not_true_iff_false in E; rewrite Qle_bool_iff in E]
  end.

(* ===================================================================== *)
(** * SpeedMapper *)
(* ===================================================================== *)

Lemma fanSpeedToPercentage_lower (s : string) :
  FanSpeedFan.fanSpeedToPercentage (toLowerCase s) = FanSpeedFan.fanSpeedToPercentage s.
Proof. unfold FanSpeedFan.fanSpeedToPercentage. by rewrite toLowerCase_idem. Qed.

Lemma fanSpeedToPercentage_case (s t : string) :
  case_variant s t = true →
  FanSpeedFan.fanSpeedToPercentage s = FanSpeedFan.fanSpeedToPercentage t.
Proof.
  intros H%case_variant_lower.
  by rewrite <- (fanSpeedToPercentage_lower s), H, fanSpeedToPercentage_lower.
Qed.

Lemma fanSpeedToPercentage_values (s : string) :
  ∃ l, FanSpeedFan.fanSpeedToPercentage s = levelPercentage l.
Proof.
  unfold FanSpeedFan.fanSpeedToPercentage.
  string_cases;
    first [by exists Auto | by exists One | by exists Two
          | by exists Three | by exists Four | by exists Five].
Qed.

(* ===================================================================== *)
(** * Settings: parsing and field replacement *)
(* ===================================================================== *)

Lemma parseSettings_cons (x : MELCloudAPI.Setting) (l : list MELCloudAPI.Setting) :
  MELCloudAPI.parseSettings (x :: l) =
  <[MELCloudAPI.name x := MELCloudAPI.value x]> (MELCloudAPI.parseSettings l).
Proof. reflexivity. Qed.

Section parse_map.
Variable f : MELCloudAPI.Setting → MELCloudAPI.Setting.
Hypothesis f_name : ∀ s, MELCloudAPI.name (f s) = MELCloudAPI.name s.

(** A field whose entries keep their value parses as before. *)
Lemma parseSettings_map_frame (k : string) (l : list MELCloudAPI.Setting) :
  (∀ s, MELCloudAPI.name s = k → MELCloudAPI.value (f s) = MELCloudAPI.value s) →
  MELCloudAPI.parseSettings (f <$> l) !! k = MELCloudAPI.parseSettings l !! k.
Proof using f_name.
  intros Hk. induction l as [|x l IH]; [done|].
  rewrite fmap_cons, !parseSettings_cons, !lookup_insert, f_name.
  case_decide as E; [|done]. by rewrite Hk.
Qed.

End parse_map.

(* ===================================================================== *)
(** * Running the methods *)
(* ===================================================================== *)

Ltac run_fields :=
  cbn [outcome final trace device service Active_value RotationSpeed_value app].

(** Unfold the monad and the service calls of a method run from a state
    given by its fields. *)
Ltac run :=
  lazy [mbind M_bind mret M_ret throw gets modify emit when call_on try_catch
        await_controlDevice updateCharacteristic assign_device_settings
        FanSpeedFan.getSettings SwingFan.getSettings
        outcome final trace device service Active_value RotationSpeed_value app].

Lemma differs_same (t : Q) : differs t (Some (CNumber t)) = false.
Proof. simpl. by rewrite Qeq_bool_refl. Qed.

Lemma sync_value_fixed (t : Q) (cur : option CharacteristicValue) :
  differs t (sync_value t cur) = false.
Proof.
  unfold sync_value. destruct (differs t cur) eqn:E; [apply differs_same|done].
Qed.

Lemma fan_getActive_run (pf : Platform) (st : Accessory) :
  FanSpeedFan.getActive pf st =
  {| outcome := Returned (fan_target
       (MELCloudAPI.parseSettings (MELCloudAPI.settings (device st))));
     final := st; trace := [Log LogDebug] |}.
Proof. reflexivity. Qed.

Lemma fan_updateFromDevice_run (dev : MELCloudAPI.AirToAirUnit)
    (pf : Platform) (st : Accessory) :
  FanSpeedFan.updateFromDevice dev pf st =
  let parsed := MELCloudAPI.parseSettings (MELCloudAPI.settings dev) in
  match parsed !! "SetFanSpeed" with
  | None =>
      {| outcome := Thrown TypeError;
         final := {| device := dev; service := service st |};
         trace := [] |}
  | Some fanSpeed =>
      let target := fan_target parsed in
      let percentage := FanSpeedFan.fanSpeedToPercentage fanSpeed in
      {| outcome := Returned tt;
         final :=
           {| device := dev;
              service :=
                {| Active_value := sync_value target (Active_value (service st));
                   RotationSpeed_value :=
                     sync_value percentage (RotationSpeed_value (service st)) |} |};
         trace :=
           sync_trace Active target (Active_value (service st)) ++
           sync_trace RotationSpeed percentage (RotationSpeed_value (service st)) |}
  end.
Proof.
  destruct st as [d [a r]].
  unfold FanSpeedFan.updateFromDevice, fan_target, sync_trace, sync_value. run.
  destruct (MELCloudAPI.parseSettings (MELCloudAPI.settings dev) !! "SetFanSpeed")
    as [fanSpeed|]; [|reflexivity].
  destruct (differs _ a); destruct (differs _ r); reflexivity.
Qed.

Lemma swing_updateFromDevice_run (dev : MELCloudAPI.AirToAirUnit)
    (pf : Platform) (st : Accessory) :
  SwingFan.updateFromDevice dev pf st =
  let parsed := MELCloudAPI.parseSettings (MELCloudAPI.settings dev) in
  match parsed !! "VaneVerticalDirection" with
  | None =>
      {| outcome := Thrown TypeError;
         final := {| device := dev; service := service st |};
         trace := [] |}
  | Some vane =>
      let target := swing_target parsed vane in
      {| outcome := Returned tt;
         final :=
           {| device := dev;
              service :=
                {| Active_value := sync_value target (Active_value (service st));
                   RotationSpeed_value := RotationSpeed_value (service st) |} |};
         trace := sync_trace Active target (Active_value (service st)) |}
  end.
Proof.
  destruct st as [d [a r]].
  unfold SwingFan.updateFromDevice, swing_target, sync_trace, sync_value. run.
  destruct (MELCloudAPI.parseSettings (MELCloudAPI.settings dev) !! "VaneVerticalDirection")
    as [vane|]; [|reflexivity].
  destruct (differs _ a); reflexivity.
Qed.

Lemma fan_setFanSpeed_run (fanSpeed : string) (pf : Platform) (st : Accessory) :
  FanSpeedFan.setFanSpeed fanSpeed pf st =
  let parsed := MELCloudAPI.parseSettings (MELCloudAPI.settings (device st)) in
  let i := MELCloudAPI.id (device st) in
  let cmd := fan_command parsed fanSpeed in
  match controlDevice pf i cmd with
  | Some e =>
      {| outcome := Thrown (HapStatusError SERVICE_COMMUNICATION_FAILURE);
         final := st;
         trace := [Log LogDebug; ControlDevice i cmd; Log LogError] |}
  | None =>
      let dev := with_settings (device st)
                   (fan_entry fanSpeed <$> MELCloudAPI.settings (device st)) in
      after_write [Log LogDebug; ControlDevice i cmd]
        (FanSpeedFan.updateFromDevice dev pf
           {| device := dev; service := service st |})
  end.
Proof.
  destruct st as [d svc].
  unfold FanSpeedFan.setFanSpeed, after_write, fan_command, fan_entry, with_settings.
  run.
  destruct (controlDevice pf _ _); [reflexivity|].
  destruct (FanSpeedFan.updateFromDevice _ _ _) as [[[]|e] f t]; reflexivity.
Qed.

Lemma swing_setVanePosition_run (vaneDirection : string) (pf : Platform)
    (st : Accessory) :
  SwingFan.setVanePosition vaneDirection pf st =
  let parsed := MELCloudAPI.parseSettings (MELCloudAPI.settings (device st)) in
  let i := MELCloudAPI.id (device st) in
  let cmd := swing_command parsed vaneDirection in
  match controlDevice pf i cmd with
  | Some e =>
      {| outcome := Thrown (HapStatusError SERVICE_COMMUNICATION_FAILURE);
         final := st;
         trace := [Log LogInfo; ControlDevice i cmd; Log LogError] |}
  | None =>
      let dev := with_settings (device st)
                   (swing_entry vaneDirection <$> MELCloudAPI.settings (device st)) in
      after_write [Log LogInfo; ControlDevice i cmd]
        (SwingFan.updateFromDevice dev pf
           {| device := dev; service := service st |})
  end.
Proof.
  destruct st as [d svc].
  unfold SwingFan.setVanePosition, after_write, swing_command, swing_entry, with_settings.
  run.
  destruct (controlDevice pf _ _); [reflexivity|].
  destruct (SwingFan.updateFromDevice _ _ _) as [[[]|e] f t]; reflexivity.
Qed.

Lemma fan_updateFromDevice_device (dev : MELCloudAPI.AirToAirUnit)
    (pf : Platform) (st : Accessory) :
  device (final (FanSpeedFan.updateFromDevice dev pf st)) = dev.
Proof.
  rewrite fan_updateFromDevice_run. cbv zeta.
  by destruct (_ !! "SetFanSpeed").
Qed.

Lemma swing_updateFromDevice_device (dev : MELCloudAPI.AirToAirUnit)
    (pf : Platform) (st : Accessory) :
  device (final (SwingFan.updateFromDevice dev pf st)) = dev.
Proof.
  rewrite swing_updateFromDevice_run. cbv zeta.
  by destruct (_ !! "VaneVerticalDirection").
Qed.

Lemma after_write_final (before : list Event) (r : Run unit) :
  final (after_write before r) = final r.
Proof. unfold after_write. by destruct (outcome r). Qed.

Lemma after_write_commands (before : list Event) (r : Run unit) :
  commands (trace r) = [] →
  commands (trace (after_write before r)) = commands before.
Proof.
  intros H. unfold after_write, commands in *.
  destruct (outcome r); run_fields;
    rewrite !omap_app, H; simpl; by rewrite app_nil_r.
Qed.

Lemma after_write_publishes (before : list Event) (r : Run unit) :
  publishes (trace (after_write before r)) =
  publishes before ++ publishes (trace r).
Proof.
  unfold after_write, publishes.
  destruct (outcome r); run_fields;
    rewrite !omap_app; simpl; by rewrite app_nil_r.
Qed.

Lemma sync_trace_commands (c : Characteristic) (t : Q)
    (cur : option CharacteristicValue) :
  commands (sync_trace c t cur) = [].
Proof. unfold sync_trace. by destruct (differs t cur). Qed.

Lemma sync_trace_publishes (c : Characteristic) (t : Q)
    (cur : option CharacteristicValue) (c' : Characteristic) (v : Q) :
  (c', v) ∈ publishes (sync_trace c t cur) →
  c' = c ∧ v = t ∧ differs t cur = true.
Proof.
  unfold sync_trace. destruct (differs t cur); simpl.
  - intros H%list_elem_of_singleton. by injection H.
  - intros H. by apply not_elem_of_nil in H.
Qed.

Lemma fan_updateFromDevice_commands (dev : MELCloudAPI.AirToAirUnit)
    (pf : Platform) (st : Accessory) :
  commands (trace (FanSpeedFan.updateFromDevice dev pf st)) = [].
Proof.
  rewrite fan_updateFromDevice_run. cbv zeta.
  destruct (_ !! "SetFanSpeed"); run_fields; [|done].
  unfold commands. rewrite omap_app. fold commands.
  by rewrite !sync_trace_commands.
Qed.

Lemma swing_updateFromDevice_commands (dev : MELCloudAPI.AirToAirUnit)
    (pf : Platform) (st : Accessory) :
  commands (trace (SwingFan.updateFromDevice dev pf st)) = [].
Proof.
  rewrite swing_updateFromDevice_run. cbv zeta.
  destruct (_ !! "VaneVerticalDirection"); run_fields; [|done].
  by rewrite sync_trace_commands.
Qed.

Lemma fan_setRotationSpeed_run (value : Q) (pf : Platform) (st : Accessory) :
  FanSpeedFan.setRotationSpeed value pf st =
  prepend [Log LogInfo]
    (FanSpeedFan.setFanSpeed (FanSpeedFan.percentageToFanSpeed value) pf st).
Proof. reflexivity. Qed.

Lemma swing_setActive_run (value : CharacteristicValue) (pf : Platform)
    (st : Accessory) :
  SwingFan.setActive value pf st =
  prepend [Log LogInfo]
    (SwingFan.setVanePosition (if value_is value ACTIVE then "Swing" else "Auto") pf st).
Proof. unfold SwingFan.setActive. by destruct (value_is value ACTIVE). Qed.

Lemma fan_setFanSpeed_commands (fanSpeed : string) (pf : Platform) (st : Accessory) :
  commands (trace (FanSpeedFan.setFanSpeed fanSpeed pf st)) =
  [(MELCloudAPI.id (device st),
    fan_command (MELCloudAPI.parseSettings (MELCloudAPI.settings (device st)))
      fanSpeed)].
Proof.
  rewrite fan_setFanSpeed_run. cbv zeta.
  destruct (controlDevice pf _ _); [done|].
  by rewrite after_write_commands by apply fan_updateFromDevice_commands.
Qed.

Lemma swing_setVanePosition_commands (vaneDirection : string) (pf : Platform)
    (st : Accessory) :
  commands (trace (SwingFan.setVanePosition vaneDirection pf st)) =
  [(MELCloudAPI.id (device st),
    swing_command (MELCloudAPI.parseSettings (MELCloudAPI.settings (device st)))
      vaneDirection)].
Proof.
  rewrite swing_setVanePosition_run. cbv zeta.
  destruct (controlDevice pf _ _); [done|].
  by rewrite after_write_commands by apply swing_updateFromDevice_commands.
Qed.

(* ===================================================================== *)
(** * Claims on the mapping functions *)
(* ===================================================================== *)

(** C6. For every percentage p in [0,100], [percentageToFanSpeed] yields
    the level whose upper-inclusive bucket holds p, and no other: Auto for
    0, One for (0,20], Two for (20,40], Three for (40,60], Four for
    (60,80], Five for (80,100].  [setRotationSpeed 45] sends one command,
    with [setFanSpeed] equal to "Three". *)
Theorem C6_percentage_buckets (p : Q) (l : SpeedLevel) (pf : Platform)
    (st : Accessory) :
  (0 <= p)%Q → (p <= 100)%Q →
  (FanSpeedFan.percentageToFanSpeed p = levelName l ↔ in_bucket l p) ∧
  (∃ cmd, commands (trace (FanSpeedFan.setRotationSpeed 45 pf st)) =
            [(MELCloudAPI.id (device st), cmd)] ∧
          MELCloudAPI.setFanSpeed cmd = Some "Three").
Proof.
  intros H0 H100. split.
  - unfold FanSpeedFan.percentageToFanSpeed. number_cases;
      destruct l; simpl; split; first [discriminate | lra | reflexivity | idtac];
      intros; exfalso; lra.
  - rewrite fan_setRotationSpeed_run. unfold prepend. run_fields.
    change (commands (Log LogInfo :: ?t)) with (commands t).
    rewrite fan_setFanSpeed_commands. eexists. split; [reflexivity|]. reflexivity.
Qed.

(** C7. For every level, [fanSpeedToPercentage] returns the ordinal index
    of the level times twenty on any case variant of the name of the level
    and on its numeric alias; on every other string it returns 0.  The
    function is total: it never raises. *)
Theorem C7_fanSpeedToPercentage_levels (l : SpeedLevel) (s : string) :
  (case_variant s (levelName l) = true ∨ s = levelAlias l →
     FanSpeedFan.fanSpeedToPercentage s = levelPercentage l) ∧
  ((∀ l', case_variant s (levelName l') = false ∧ s ≠ levelAlias l') →
     FanSpeedFan.fanSpeedToPercentage s = 0%Q).
Proof.
  split.
  - intros [H| ->].
    + rewrite (fanSpeedToPercentage_case _ _ H). by destruct l.
    + by destruct l.
  - intros H.
    assert (Hname : ∀ l', toLowerCase s ≠ toLowerCase (levelName l')).
    { intros l' E. apply case_variant_lower in E. destruct (H l'). congruence. }
    assert (Halias : ∀ l', toLowerCase s ≠ levelAlias l').
    { intros l' E. destruct (H l') as [_ Hne]. apply Hne.
      destruct l'; by apply toLowerCase_single in E. }
    unfold FanSpeedFan.fanSpeedToPercentage. string_cases; try reflexivity; exfalso;
      first [ by apply (Hname One) | by apply (Hname Two) | by apply (Hname Three)
            | by apply (Hname Four) | by apply (Hname Five)
            | by apply (Halias One) | by apply (Halias Two) | by apply (Halias Three)
            | by apply (Halias Four) | by apply (Halias Five) ].
Qed.

Lemma C7_witness :
  FanSpeedFan.fanSpeedToPercentage "tHrEe" = 60%Q ∧
  FanSpeedFan.fanSpeedToPercentage "4" = 80%Q ∧
  FanSpeedFan.fanSpeedToPercentage "turbo" = 0%Q.
Proof.
  split; [|split].
  - apply (proj1 (C7_fanSpeedToPercentage_levels Three "tHrEe")). left. reflexivity.
  - apply (proj1 (C7_fanSpeedToPercentage_levels Four "4")). right. reflexivity.
  - apply (proj2 (C7_fanSpeedToPercentage_levels Auto "turbo")).
    intros l'. destruct l'; split; first [reflexivity | discriminate].
Defined.

Lemma C6_witness :
  FanSpeedFan.percentageToFanSpeed 45 = "Three" ∧
  FanSpeedFan.percentageToFanSpeed 20 = "One" ∧
  FanSpeedFan.percentageToFanSpeed (41 # 2) = "Two".
Proof.
  split; [|split].
  - apply (proj1 (C6_percentage_buckets 45 Three platform_accepting
                    (unit_with "True" "Auto" "Auto") ltac:(lra) ltac:(lra))).
    simpl. lra.
  - apply (proj1 (C6_percentage_buckets 20 One platform_accepting
                    (unit_with "True" "Auto" "Auto") ltac:(lra) ltac:(lra))).
    simpl. lra.
  - apply (proj1 (C6_percentage_buckets (41 # 2) Two platform_accepting
                    (unit_with "True" "Auto" "Auto") ltac:(lra) ltac:(lra))).
    simpl. lra.
Defined.

(** C8. [normalizeVane] lowercases its argument; it returns "auto" exactly
    when the lowercased text is "0" or "auto", "swing" exactly when it is
    "6", "six", "7" or "swing", and in every other case the lowercased
    text itself, which is then neither "auto" nor "swing". *)
Theorem C8_normalizeVane (raw : string) :
  (SwingFan.normalizeVane raw = "auto" ↔
     toLowerCase raw = "0" ∨ toLowerCase raw = "auto") ∧
  (SwingFan.normalizeVane raw = "swing" ↔
     toLowerCase raw = "6" ∨ toLowerCase raw = "six" ∨
     toLowerCase raw = "7" ∨ toLowerCase raw = "swing") ∧
  (SwingFan.normalizeVane raw ≠ "auto" → SwingFan.normalizeVane raw ≠ "swing" →
     SwingFan.normalizeVane raw = toLowerCase raw ∧
     toLowerCase raw ≠ "auto" ∧ toLowerCase raw ≠ "swing").
Proof.
  unfold SwingFan.normalizeVane. cbv zeta.
  string_cases; (split; [|split]);
    repeat match goal with
    | H : toLowerCase raw = _ |- _ => rewrite H in *
    end;
    try (split; intros; try discriminate; try congruence; intuition congruence);
    try (intros; intuition congruence).
Qed.

Lemma C8_witness :
  SwingFan.normalizeVane "Three" = toLowerCase "Three" ∧
  toLowerCase "Three" ≠ "auto" ∧ toLowerCase "Three" ≠ "swing".
Proof.
  apply (proj2 (proj2 (C8_normalizeVane "Three"))); vm_compute; discriminate.
Defined.

(** C9. On each canonical percentage 0, 20, 40, 60, 80, 100,
    [percentageToFanSpeed] followed by [fanSpeedToPercentage] gives the
    percentage back; and on [0,100] [percentageToFanSpeed] is
    non-decreasing for the order Auto < One < Two < Three < Four < Five of
    the levels. *)
Theorem C9_round_trip_and_monotone (p q : Q) :
  ((p == 0 ∨ p == 20 ∨ p == 40 ∨ p == 60 ∨ p == 80 ∨ p == 100)%Q →
     (FanSpeedFan.fanSpeedToPercentage (FanSpeedFan.percentageToFanSpeed p) == p)%Q) ∧
  ((0 <= p)%Q → (p <= q)%Q → (q <= 100)%Q →
     ∃ a b, levelOfName (FanSpeedFan.percentageToFanSpeed p) = Some a ∧
            levelOfName (FanSpeedFan.percentageToFanSpeed q) = Some b ∧
            (levelIndex a ≤ levelIndex b)%Z).
Proof.
  split.
  - intros H. unfold FanSpeedFan.percentageToFanSpeed.
    number_cases; vm_compute FanSpeedFan.fanSpeedToPercentage; lra.
  - intros H0 Hpq H100. unfold FanSpeedFan.percentageToFanSpeed.
    number_cases; try (exfalso; lra);
      (eexists; eexists; split; [reflexivity|split; [reflexivity|]]);
      simpl; lia.
Qed.

Lemma C9_witness :
  (FanSpeedFan.fanSpeedToPercentage (FanSpeedFan.percentageToFanSpeed 60) == 60)%Q ∧
  ∃ a b, levelOfName (FanSpeedFan.percentageToFanSpeed 20) = Some a ∧
         levelOfName (FanSpeedFan.percentageToFanSpeed (41 # 2)) = Some b ∧
         (levelIndex a ≤ levelIndex b)%Z.
Proof.
  split.
  - apply (proj1 (C9_round_trip_and_monotone 60 60)).
    do 3 right. left. reflexivity.
  - apply (proj2 (C9_round_trip_and_monotone 20 (41 # 2))); lra.
Defined.

Lemma levelPercentage_on_grid (l : SpeedLevel) :
  on_grid FanSpeedFan.RotationSpeed_props (levelPercentage l).
Proof.
  unfold on_grid, levelPercentage. simpl.
  split; [|split]; [destruct l; vm_compute; discriminate ..|].
  exists (levelIndex l). split; [by destruct l|]. by destruct l.
Qed.

Lemma fan_getRotationSpeed_run (pf : Platform) (st : Accessory) :
  FanSpeedFan.getRotationSpeed pf st =
  match MELCloudAPI.parseSettings (MELCloudAPI.settings (device st)) !! "SetFanSpeed" with
  | Some fanSpeed =>
      {| outcome := Returned (FanSpeedFan.fanSpeedToPercentage fanSpeed);
         final := st; trace := [Log LogDebug] |}
  | None => {| outcome := Thrown TypeError; final := st; trace := [] |}
  end.
Proof.
  destruct st as [d svc]. unfold FanSpeedFan.getRotationSpeed. run.
  by destruct (_ !! "SetFanSpeed").
Qed.

Lemma fan_updateFromDevice_publishes (dev : MELCloudAPI.AirToAirUnit)
    (pf : Platform) (st : Accessory) (c : Characteristic) (v : Q) :
  (c, v) ∈ publishes (trace (FanSpeedFan.updateFromDevice dev pf st)) →
  differs v (published (service st) c) = true ∧
  (c = RotationSpeed → ∃ s, v = FanSpeedFan.fanSpeedToPercentage s).
Proof.
  rewrite fan_updateFromDevice_run. cbv zeta.
  destruct (_ !! "SetFanSpeed") as [fanSpeed|]; run_fields.
  - unfold publishes. rewrite omap_app. fold publishes.
    intros [H|H]%elem_of_app; apply sync_trace_publishes in H as (-> & -> & H);
      (split; [done|]); [discriminate|eauto].
  - intros H. by apply not_elem_of_nil in H.
Qed.

Lemma swing_updateFromDevice_publishes (dev : MELCloudAPI.AirToAirUnit)
    (pf : Platform) (st : Accessory) (c : Characteristic) (v : Q) :
  (c, v) ∈ publishes (trace (SwingFan.updateFromDevice dev pf st)) →
  c = Active ∧ differs v (published (service st) c) = true.
Proof.
  rewrite swing_updateFromDevice_run. cbv zeta.
  destruct (_ !! "VaneVerticalDirection") as [vane|]; run_fields.
  - intros H. by apply sync_trace_publishes in H as (-> & -> & H).
  - intros H. by apply not_elem_of_nil in H.
Qed.

(** C10. On every string [fanSpeedToPercentage] returns one of 0, 20, 40,
    60, 80, 100.  So the value the fan accessory reads for RotationSpeed,
    and every value it publishes for it, is a whole number of steps of 20
    within the declared range 0 to 100; the read returns such a value
    whenever the settings hold a SetFanSpeed entry. *)
Theorem C10_rotation_speed_on_grid (s fanSpeed : string) (pf : Platform)
    (st : Accessory) (dev : MELCloudAPI.AirToAirUnit) (v : Q) :
  FanSpeedFan.fanSpeedToPercentage s ∈ [0%Q; 20%Q; 40%Q; 60%Q; 80%Q; 100%Q] ∧
  on_grid FanSpeedFan.RotationSpeed_props (FanSpeedFan.fanSpeedToPercentage s) ∧
  (is_Some (MELCloudAPI.parseSettings (MELCloudAPI.settings (device st)) !! "SetFanSpeed") →
     ∃ v', outcome (FanSpeedFan.getRotationSpeed pf st) = Returned v') ∧
  (outcome (FanSpeedFan.getRotationSpeed pf st) = Returned v →
     on_grid FanSpeedFan.RotationSpeed_props v) ∧
  ((RotationSpeed, v) ∈ publishes (trace (FanSpeedFan.updateFromDevice dev pf st)) →
     on_grid FanSpeedFan.RotationSpeed_props v) ∧
  ((RotationSpeed, v) ∈ publishes (trace (FanSpeedFan.setFanSpeed fanSpeed pf st)) →
     on_grid FanSpeedFan.RotationSpeed_props v).
Proof.
  assert (Hgrid : ∀ x, on_grid FanSpeedFan.RotationSpeed_props
                         (FanSpeedFan.fanSpeedToPercentage x)).
  { intros x. destruct (fanSpeedToPercentage_values x) as [l ->].
    apply levelPercentage_on_grid. }
  split; [|split; [apply Hgrid|split; [|split; [|split]]]].
  - destruct (fanSpeedToPercentage_values s) as [l ->].
    destruct l; vm_compute levelPercentage;
      repeat first [apply list_elem_of_here | apply list_elem_of_further].
  - rewrite fan_getRotationSpeed_run. intros [x ->]. eauto.
  - rewrite fan_getRotationSpeed_run.
    destruct (_ !! "SetFanSpeed"); simpl; [|discriminate].
    intros [= <-]. apply Hgrid.
  - intros H. apply fan_updateFromDevice_publishes in H as [_ H].
    destruct (H eq_refl) as [x ->]. apply Hgrid.
  - rewrite fan_setFanSpeed_run. cbv zeta.
    destruct (controlDevice pf _ _).
    + intros H. by apply not_elem_of_nil in H.
    + rewrite after_write_publishes.
      change (publishes [Log LogDebug; ControlDevice ?i ?c])
        with (@nil (Characteristic * Q)).
      rewrite app_nil_l.
      intros H. apply fan_updateFromDevice_publishes in H as [_ H].
      destruct (H eq_refl) as [x ->]. apply Hgrid.
Qed.

Lemma C10_witness :
  (∃ v', outcome (FanSpeedFan.getRotationSpeed platform_accepting
                    (unit_with "True" "three" "Auto")) = Returned v') ∧
  on_grid FanSpeedFan.RotationSpeed_props 60 ∧
  on_grid FanSpeedFan.RotationSpeed_props 100.
Proof.
  pose proof (C10_rotation_speed_on_grid "x" "Five" platform_accepting
                (unit_with "True" "three" "Auto")
                (device (unit_with "True" "Five" "Auto")) 60) as (_ & _ & H1 & H2 & _).
  pose proof (C10_rotation_speed_on_grid "x" "Five" platform_accepting
                (unit_with "True" "three" "Auto")
                (device (unit_with "True" "Five" "Auto")) 100) as (_ & _ & _ & _ & H3 & H4).
  split; [|split].
  - apply H1. vm_compute. eauto.
  - apply H2. reflexivity.
  - apply H4. vm_compute. apply list_elem_of_further, list_elem_of_here.
Defined.

(* ===================================================================== *)
(** * Claims on the projections and the dispatcher *)
(* ===================================================================== *)

Lemma fan_entry_replaced (v : string) (l : list MELCloudAPI.Setting) :
  fan_fields_replaced v l (fan_entry v <$> l).
Proof.
  unfold fan_fields_replaced. induction l as [|x l IH]; [constructor|].
  rewrite fmap_cons. constructor; [|done].
  unfold fan_entry.
  destruct (String.eqb (MELCloudAPI.name x) "SetFanSpeed"); [done|].
  by destruct (String.eqb (MELCloudAPI.name x) "Power").
Qed.

Lemma swing_entry_replaced (v : string) (l : list MELCloudAPI.Setting) :
  only_field_replaced "VaneVerticalDirection" v l (swing_entry v <$> l).
Proof.
  unfold only_field_replaced. induction l as [|x l IH]; [constructor|].
  rewrite fmap_cons. constructor; [|done].
  unfold swing_entry.
  by destruct (String.eqb (MELCloudAPI.name x) "VaneVerticalDirection").
Qed.

Lemma swing_entry_name (v : string) (s : MELCloudAPI.Setting) :
  MELCloudAPI.name (swing_entry v s) = MELCloudAPI.name s.
Proof.
  unfold swing_entry.
  by destruct (String.eqb (MELCloudAPI.name s) "VaneVerticalDirection").
Qed.

Lemma swing_entry_value (v k : string) (s : MELCloudAPI.Setting) :
  k ≠ "VaneVerticalDirection" → MELCloudAPI.name s = k →
  MELCloudAPI.value (swing_entry v s) = MELCloudAPI.value s.
Proof.
  intros Hk <-. unfold swing_entry.
  destruct (String.eqb (MELCloudAPI.name s) "VaneVerticalDirection") eqn:E; [|done].
  by apply String.eqb_eq in E.
Qed.

(** What the fan variant reads for [Active], exactly. *)
Lemma fan_getActive_exact (pf : Platform) (st : Accessory) :
  let parsed := MELCloudAPI.parseSettings (MELCloudAPI.settings (device st)) in
  outcome (FanSpeedFan.getActive pf st) = Returned ACTIVE ↔
  parsed !! "Power" = Some "True" ∧
  parsed !! "SetFanSpeed" ≠ Some "Auto" ∧ parsed !! "SetFanSpeed" ≠ Some "0".
Proof.
  cbv zeta. rewrite fan_getActive_run. unfold fan_target. simpl.
  destruct (_ !! "Power") as [p|], (_ !! "SetFanSpeed") as [f|]; simpl;
    string_cases; subst; split;
    first [ discriminate | intros (? & ? & ?); congruence
          | intros _; repeat split; congruence ].
Qed.

(** With the power off, the fan variant reads INACTIVE whatever the speed. *)
Lemma fan_getActive_power_off (pf : Platform) (st : Accessory) :
  MELCloudAPI.parseSettings (MELCloudAPI.settings (device st)) !! "Power" = Some "False" →
  outcome (FanSpeedFan.getActive pf st) = Returned INACTIVE.
Proof.
  intros H. rewrite fan_getActive_run. unfold fan_target. by rewrite H.
Qed.

(** The level the specification parses from a raw speed is the one whose
    percentage [fanSpeedToPercentage] returns. *)
Lemma fanSpeedToPercentage_parseLevel (s : string) :
  FanSpeedFan.fanSpeedToPercentage s = levelPercentage (parseLevel s).
Proof.
  unfold FanSpeedFan.fanSpeedToPercentage, parseLevel. cbv zeta. simpl.
  string_cases; try reflexivity; exfalso;
    repeat match goal with
    | H : toLowerCase s = String ?d EmptyString |- _ =>
        apply toLowerCase_single in H; [|reflexivity]
    end;
    try subst s; vm_compute in *; congruence.
Qed.

(** C1. The fan variant does not derive Active from the parsed level: with
    the power on and SetFanSpeed "auto", which parses to the level Auto
    and reads as 0 percent, [getActive] returns ACTIVE, and a refresh
    publishes ACTIVE, where the claim requires INACTIVE. *)
Theorem C1_getActive_lowercase_auto :
  let st := unit_with "True" "auto" "Auto" in
  parseLevel "auto" = Auto ∧
  outcome (FanSpeedFan.getRotationSpeed platform_accepting st) = Returned 0%Q ∧
  outcome (FanSpeedFan.getActive platform_accepting st) = Returned ACTIVE ∧
  publishes (trace (FanSpeedFan.updateFromDevice (device st) platform_accepting st))
    = [(Active, ACTIVE)].
Proof. vm_compute. auto. Qed.

(** C2, as stated, fails: a successful fan write from a unit that is off
    also turns the cached Power entry to "True". *)
Lemma C2_counterexample :
  let st := unit_with "False" "Auto" "Auto" in
  let r := FanSpeedFan.setFanSpeed "Five" platform_accepting st in
  remote_calls_succeed platform_accepting (trace r) ∧
  ¬ only_field_replaced "SetFanSpeed" "Five"
      (MELCloudAPI.settings (device st)) (MELCloudAPI.settings (device (final r))).
Proof.
  cbv zeta. split; [by intros i cmd _|].
  intros H. vm_compute in H.
  apply Forall2_cons_1 in H as [[_ H] _]. discriminate.
Qed.

(** C2, amended. After a write whose remote call succeeded, the cached
    settings list has the same entries in the same order, with these
    values replaced and no other: on the fan variant SetFanSpeed becomes
    the written speed and Power becomes "True" (the command forces the
    power on); on the swing variant VaneVerticalDirection becomes the
    written direction.  The identity of the device is kept. *)
Theorem C2_optimistic_update (pf : Platform) (st : Accessory) (v : string) :
  (remote_calls_succeed pf (trace (FanSpeedFan.setFanSpeed v pf st)) →
     ∃ l, device (final (FanSpeedFan.setFanSpeed v pf st)) = with_settings (device st) l ∧
          fan_fields_replaced v (MELCloudAPI.settings (device st)) l) ∧
  (remote_calls_succeed pf (trace (SwingFan.setVanePosition v pf st)) →
     ∃ l, device (final (SwingFan.setVanePosition v pf st)) = with_settings (device st) l ∧
          only_field_replaced "VaneVerticalDirection" v
            (MELCloudAPI.settings (device st)) l).
Proof.
  split; intros H.
  - pose proof (H _ _ ltac:(rewrite fan_setFanSpeed_commands; apply list_elem_of_here)) as E.
    rewrite fan_setFanSpeed_run. cbv zeta. rewrite E.
    rewrite after_write_final, fan_updateFromDevice_device.
    eexists. split; [reflexivity|apply fan_entry_replaced].
  - pose proof (H _ _ ltac:(rewrite swing_setVanePosition_commands; apply list_elem_of_here)) as E.
    rewrite swing_setVanePosition_run. cbv zeta. rewrite E.
    rewrite after_write_final, swing_updateFromDevice_device.
    eexists. split; [reflexivity|apply swing_entry_replaced].
Qed.

Lemma C2_witness :
  (∃ l, device (final (FanSpeedFan.setFanSpeed "Two" platform_accepting
                         (unit_with "False" "Auto" "Auto")))
        = with_settings (device (unit_with "False" "Auto" "Auto")) l ∧
        fan_fields_replaced "Two"
          (MELCloudAPI.settings (device (unit_with "False" "Auto" "Auto"))) l) ∧
  (∃ l, device (final (SwingFan.setVanePosition "Swing" platform_accepting
                         (unit_with "False" "Auto" "Auto")))
        = with_settings (device (unit_with "False" "Auto" "Auto")) l ∧
        only_field_replaced "VaneVerticalDirection" "Swing"
          (MELCloudAPI.settings (device (unit_with "False" "Auto" "Auto"))) l).
Proof.
  split.
  - apply (proj1 (C2_optimistic_update platform_accepting
                    (unit_with "False" "Auto" "Auto") "Two")).
    intros i cmd _. reflexivity.
  - apply (proj2 (C2_optimistic_update platform_accepting
                    (unit_with "False" "Auto" "Auto") "Swing")).
    intros i cmd _. reflexivity.
Defined.

(** C3. When the remote call of a write is rejected, on either variant,
    the accessory is left exactly as it was (the cached settings and the
    published values), nothing is published, no refresh is requested, and
    the caller gets the one fault SERVICE_COMMUNICATION_FAILURE, whatever
    the remote error was. *)
Theorem C3_failed_write_keeps_cache (pf : Platform) (st : Accessory) (v : string) :
  (remote_calls_fail pf (trace (FanSpeedFan.setFanSpeed v pf st)) →
     final (FanSpeedFan.setFanSpeed v pf st) = st ∧
     outcome (FanSpeedFan.setFanSpeed v pf st)
       = Thrown (HapStatusError SERVICE_COMMUNICATION_FAILURE) ∧
     publishes (trace (FanSpeedFan.setFanSpeed v pf st)) = [] ∧
     ScheduleRefresh ∉ trace (FanSpeedFan.setFanSpeed v pf st)) ∧
  (remote_calls_fail pf (trace (SwingFan.setVanePosition v pf st)) →
     final (SwingFan.setVanePosition v pf st) = st ∧
     outcome (SwingFan.setVanePosition v pf st)
       = Thrown (HapStatusError SERVICE_COMMUNICATION_FAILURE) ∧
     publishes (trace (SwingFan.setVanePosition v pf st)) = [] ∧
     ScheduleRefresh ∉ trace (SwingFan.setVanePosition v pf st)).
Proof.
  split; intros H.
  - pose proof (H _ _ ltac:(rewrite fan_setFanSpeed_commands; apply list_elem_of_here)) as E.
    rewrite fan_setFanSpeed_run. cbv zeta.
    destruct (controlDevice pf _ _) as [e|]; [|done]. run_fields.
    repeat split. intros Hin.
    repeat (apply elem_of_cons in Hin as [Hin|Hin]; [discriminate|]).
    by apply not_elem_of_nil in Hin.
  - pose proof (H _ _ ltac:(rewrite swing_setVanePosition_commands; apply list_elem_of_here)) as E.
    rewrite swing_setVanePosition_run. cbv zeta.
    destruct (controlDevice pf _ _) as [e|]; [|done]. run_fields.
    repeat split. intros Hin.
    repeat (apply elem_of_cons in Hin as [Hin|Hin]; [discriminate|]).
    by apply not_elem_of_nil in Hin.
Qed.

Lemma C3_witness :
  final (FanSpeedFan.setFanSpeed "Five" platform_rejecting (unit_with "False" "Auto" "Auto"))
    = unit_with "False" "Auto" "Auto" ∧
  outcome (SwingFan.setVanePosition "Swing" platform_rejecting (unit_with "True" "Two" "Auto"))
    = Thrown (HapStatusError SERVICE_COMMUNICATION_FAILURE).
Proof.
  split.
  - apply (proj1 (C3_failed_write_keeps_cache platform_rejecting
                    (unit_with "False" "Auto" "Auto") "Five")).
    intros i cmd _. discriminate.
  - apply (proj2 (C3_failed_write_keeps_cache platform_rejecting
                    (unit_with "True" "Two" "Auto") "Swing")).
    intros i cmd _. discriminate.
Defined.

(** C4. On both variants, [updateFromDevice] publishes a characteristic
    only when the value it computed differs from the last published one;
    so a second run on the same device, from whatever published state the
    first run started, publishes nothing. *)
Theorem C4_second_refresh_publishes_nothing (pf : Platform) (st : Accessory)
    (dev : MELCloudAPI.AirToAirUnit) :
  publishes (trace (FanSpeedFan.updateFromDevice dev pf
                      (final (FanSpeedFan.updateFromDevice dev pf st)))) = [] ∧
  publishes (trace (SwingFan.updateFromDevice dev pf
                      (final (SwingFan.updateFromDevice dev pf st)))) = [] ∧
  (∀ c v, (c, v) ∈ publishes (trace (FanSpeedFan.updateFromDevice dev pf st)) →
          differs v (published (service st) c) = true) ∧
  (∀ c v, (c, v) ∈ publishes (trace (SwingFan.updateFromDevice dev pf st)) →
          differs v (published (service st) c) = true).
Proof.
  split; [|split; [|split]].
  - rewrite (fan_updateFromDevice_run dev pf st). cbv zeta.
    destruct (_ !! "SetFanSpeed") as [fanSpeed|] eqn:E; run_fields;
      rewrite fan_updateFromDevice_run; cbv zeta; rewrite E; [|done].
    run_fields. unfold sync_trace. by rewrite !sync_value_fixed.
  - rewrite (swing_updateFromDevice_run dev pf st). cbv zeta.
    destruct (_ !! "VaneVerticalDirection") as [vane|] eqn:E; run_fields;
      rewrite swing_updateFromDevice_run; cbv zeta; rewrite E; [|done].
    run_fields. unfold sync_trace. by rewrite sync_value_fixed.
  - intros c v H. by apply fan_updateFromDevice_publishes in H as [H _].
  - intros c v H. by apply swing_updateFromDevice_publishes in H as [_ H].
Qed.

Lemma C4_witness :
  differs 60 (published (service (unit_with "True" "Auto" "Auto")) RotationSpeed) = true.
Proof.
  apply (proj1 (proj2 (proj2 (C4_second_refresh_publishes_nothing platform_accepting
           (unit_with "True" "Auto" "Auto")
           (device (unit_with "True" "three" "Auto")))))).
  vm_compute. apply list_elem_of_further, list_elem_of_here.
Defined.

(** C5. On the swing variant [setActive], for either value, sends one
    command: its power field is true exactly when the cached Power is
    "True", its vane direction is "Swing" on activation and "Auto" on
    deactivation, and every other field is the cached one.  Afterwards
    the cached value of Power, as of every field other than
    VaneVerticalDirection, is what it was. *)
Theorem C5_swing_setActive_keeps_power (value : CharacteristicValue)
    (pf : Platform) (st : Accessory) :
  let parsed := MELCloudAPI.parseSettings (MELCloudAPI.settings (device st)) in
  let r := SwingFan.setActive value pf st in
  commands (trace r) =
    [(MELCloudAPI.id (device st),
      {| MELCloudAPI.power := (parsed !! "Power") === "True";
         MELCloudAPI.operationMode := parsed !! "OperationMode";
         MELCloudAPI.setFanSpeed := parsed !! "SetFanSpeed";
         MELCloudAPI.vaneHorizontalDirection := parsed !! "VaneHorizontalDirection";
         MELCloudAPI.vaneVerticalDirection :=
           Some (if value_is value ACTIVE then "Swing" else "Auto");
         MELCloudAPI.setTemperature := parsed !! "SetTemperature";
         MELCloudAPI.temperatureIncrementOverride := None;
         MELCloudAPI.inStandbyMode := None |})] ∧
  MELCloudAPI.parseSettings (MELCloudAPI.settings (device (final r))) !! "Power"
    = parsed !! "Power" ∧
  (∀ k, k ≠ "VaneVerticalDirection" →
        MELCloudAPI.parseSettings (MELCloudAPI.settings (device (final r))) !! k
          = parsed !! k).
Proof.
  cbv zeta. rewrite swing_setActive_run. unfold prepend. run_fields.
  set (v := if value_is value ACTIVE then "Swing" else "Auto").
  assert (Hframe : ∀ k, k ≠ "VaneVerticalDirection" →
    MELCloudAPI.parseSettings
      (MELCloudAPI.settings (device (final (SwingFan.setVanePosition v pf st)))) !! k
    = MELCloudAPI.parseSettings (MELCloudAPI.settings (device st)) !! k).
  { intros k Hk. rewrite swing_setVanePosition_run. cbv zeta.
    destruct (controlDevice pf _ _); [done|].
    rewrite after_write_final, swing_updateFromDevice_device. simpl.
    apply parseSettings_map_frame.
    - apply swing_entry_name.
    - intros s. by apply swing_entry_value. }
  split; [|split].
  - change (commands (Log LogInfo :: ?t)) with (commands t).
    by rewrite swing_setVanePosition_commands.
  - by apply Hframe.
  - apply Hframe.
Qed.

Lemma C5_witness :
  MELCloudAPI.parseSettings
    (MELCloudAPI.settings
       (device (final (SwingFan.setActive (CNumber 0) platform_accepting
                         (unit_with "False" "Two" "Swing"))))) !! "SetFanSpeed"
  = MELCloudAPI.parseSettings
      (MELCloudAPI.settings (device (unit_with "False" "Two" "Swing"))) !! "SetFanSpeed".
Proof.
  apply (proj2 (proj2 (C5_swing_setActive_keeps_power (CNumber 0) platform_accepting
                         (unit_with "False" "Two" "Swing")))).
  discriminate.
Defined.

(* ===================================================================== *)
(** * Further properties: the whole run of a write *)
(* ===================================================================== *)

Lemma fan_entry_name (v : string) (s : MELCloudAPI.Setting) :
  MELCloudAPI.name (fan_entry v s) = MELCloudAPI.name s.
Proof.
  unfold fan_entry.
  destruct (String.eqb (MELCloudAPI.name s) "SetFanSpeed"); [done|].
  by destruct (String.eqb (MELCloudAPI.name s) "Power").
Qed.

(** A field all of whose entries get the value [v] parses to [v], when it
    is there at all: the update adds no entry. *)
Lemma parseSettings_map_set (f : MELCloudAPI.Setting → MELCloudAPI.Setting)
    (k v : string) (l : list MELCloudAPI.Setting) :
  (∀ s, MELCloudAPI.name (f s) = MELCloudAPI.name s) →
  (∀ s, MELCloudAPI.name s = k → MELCloudAPI.value (f s) = v) →
  MELCloudAPI.parseSettings (f <$> l) !! k =
  (λ _, v) <$> MELCloudAPI.parseSettings l !! k.
Proof.
  intros Hn Hk. induction l as [|x l IH]; [done|].
  rewrite fmap_cons, !parseSettings_cons, !lookup_insert, Hn.
  case_decide as E; [|done]. by rewrite Hk.
Qed.

Lemma fan_entry_parse (v k : string) (l : list MELCloudAPI.Setting) :
  MELCloudAPI.parseSettings (fan_entry v <$> l) !! k =
  if String.eqb k "SetFanSpeed" then (λ _, v) <$> MELCloudAPI.parseSettings l !! k
  else if String.eqb k "Power" then (λ _, "True") <$> MELCloudAPI.parseSettings l !! k
  else MELCloudAPI.parseSettings l !! k.
Proof.
  destruct (String.eqb k "SetFanSpeed") eqn:E1;
    [|destruct (String.eqb k "Power") eqn:E2].
  - apply String.eqb_eq in E1 as ->.
    apply parseSettings_map_set; [apply fan_entry_name|].
    intros s Hs. unfold fan_entry. by rewrite Hs.
  - apply String.eqb_eq in E2 as ->.
    apply parseSettings_map_set; [apply fan_entry_name|].
    intros s Hs. unfold fan_entry. by rewrite Hs.
  - apply parseSettings_map_frame; [apply fan_entry_name|].
    intros s <-. unfold fan_entry. by rewrite E1, E2.
Qed.

Lemma swing_entry_parse (v k : string) (l : list MELCloudAPI.Setting) :
  MELCloudAPI.parseSettings (swing_entry v <$> l) !! k =
  if String.eqb k "VaneVerticalDirection"
  then (λ _, v) <$> MELCloudAPI.parseSettings l !! k
  else MELCloudAPI.parseSettings l !! k.
Proof.
  destruct (String.eqb k "VaneVerticalDirection") eqn:E1.
  - apply String.eqb_eq in E1 as ->.
    apply parseSettings_map_set; [apply swing_entry_name|].
    intros s Hs. unfold swing_entry. by rewrite Hs.
  - apply parseSettings_map_frame; [apply swing_entry_name|].
    intros s Hs. apply (swing_entry_value v k); [|done].
    by apply String.eqb_neq.
Qed.

Lemma fan_target_written (v : string) (l : list MELCloudAPI.Setting) :
  is_Some (MELCloudAPI.parseSettings l !! "SetFanSpeed") →
  fan_target (MELCloudAPI.parseSettings (fan_entry v <$> l)) =
  fan_written_target (MELCloudAPI.parseSettings l) v.
Proof.
  intros [old Hold]. unfold fan_target, fan_written_target.
  rewrite !fan_entry_parse. simpl. rewrite Hold. simpl.
  by destruct (_ !! "Power").
Qed.

Lemma swing_target_written (v vane : string) (l : list MELCloudAPI.Setting) :
  swing_target (MELCloudAPI.parseSettings (swing_entry v <$> l)) vane =
  swing_target (MELCloudAPI.parseSettings l) vane.
Proof. unfold swing_target. by rewrite swing_entry_parse. Qed.

(** The three runs of a fan write: the remote call is rejected; it is
    accepted and the settings have no SetFanSpeed entry; it is accepted and
    they have one. *)
Lemma fan_setFanSpeed_full (v : string) (pf : Platform) (st : Accessory) :
  FanSpeedFan.setFanSpeed v pf st =
  let parsed := MELCloudAPI.parseSettings (MELCloudAPI.settings (device st)) in
  let i := MELCloudAPI.id (device st) in
  let cmd := fan_command parsed v in
  let dev := with_settings (device st)
               (fan_entry v <$> MELCloudAPI.settings (device st)) in
  match controlDevice pf i cmd with
  | Some e =>
      {| outcome := Thrown (HapStatusError SERVICE_COMMUNICATION_FAILURE);
         final := st;
         trace := [Log LogDebug; ControlDevice i cmd; Log LogError] |}
  | None =>
      match parsed !! "SetFanSpeed" with
      | None =>
          {| outcome := Thrown (HapStatusError SERVICE_COMMUNICATION_FAILURE);
             final := {| device := dev; service := service st |};
             trace := [Log LogDebug; ControlDevice i cmd; Log LogError] |}
      | Some _ =>
          let target := fan_written_target parsed v in
          let percentage := FanSpeedFan.fanSpeedToPercentage v in
          {| outcome := Returned tt;
             final :=
               {| device := dev;
                  service :=
                    {| Active_value :=
                         sync_value target (Active_value (service st));
                       RotationSpeed_value :=
                         sync_value percentage (RotationSpeed_value (service st)) |} |};
             trace :=
               [Log LogDebug; ControlDevice i cmd] ++
               (sync_trace Active target (Active_value (service st)) ++
                sync_trace RotationSpeed percentage
                  (RotationSpeed_value (service st))) ++
               [ScheduleRefresh] |}
      end
  end.
Proof.
  rewrite fan_setFanSpeed_run. cbv zeta.
  destruct (controlDevice pf _ _); [done|].
  rewrite fan_updateFromDevice_run. cbv zeta.
  change (MELCloudAPI.settings (with_settings ?d ?l)) with l.
  pose proof (fan_entry_parse v "SetFanSpeed" (MELCloudAPI.settings (device st))) as E.
  simpl in E. rewrite E.
  destruct (MELCloudAPI.parseSettings (MELCloudAPI.settings (device st)) !! "SetFanSpeed")
    as [old|] eqn:Hold; simpl; [|done].
  unfold after_write. run_fields.
  by rewrite fan_target_written by (rewrite Hold; eauto).
Qed.

(** The three runs of a swing write. *)
Lemma swing_setVanePosition_full (v : string) (pf : Platform) (st : Accessory) :
  SwingFan.setVanePosition v pf st =
  let parsed := MELCloudAPI.parseSettings (MELCloudAPI.settings (device st)) in
  let i := MELCloudAPI.id (device st) in
  let cmd := swing_command parsed v in
  let dev := with_settings (device st)
               (swing_entry v <$> MELCloudAPI.settings (device st)) in
  match controlDevice pf i cmd with
  | Some e =>
      {| outcome := Thrown (HapStatusError SERVICE_COMMUNICATION_FAILURE);
         final := st;
         trace := [Log LogInfo; ControlDevice i cmd; Log LogError] |}
  | None =>
      match parsed !! "VaneVerticalDirection" with
      | None =>
          {| outcome := Thrown (HapStatusError SERVICE_COMMUNICATION_FAILURE);
             final := {| device := dev; service := service st |};
             trace := [Log LogInfo; ControlDevice i cmd; Log LogError] |}
      | Some _ =>
          let target := swing_target parsed v in
          {| outcome := Returned tt;
             final :=
               {| device := dev;
                  service :=
                    {| Active_value :=
                         sync_value target (Active_value (service st));
                       RotationSpeed_value := RotationSpeed_value (service st) |} |};
             trace :=
               [Log LogInfo; ControlDevice i cmd] ++
               sync_trace Active target (Active_value (service st)) ++
               [ScheduleRefresh] |}
      end
  end.
Proof.
  rewrite swing_setVanePosition_run. cbv zeta.
  destruct (controlDevice pf _ _); [done|].
  rewrite swing_updateFromDevice_run. cbv zeta.
  change (MELCloudAPI.settings (with_settings ?d ?l)) with l.
  pose proof (swing_entry_parse v "VaneVerticalDirection"
                (MELCloudAPI.settings (device st))) as E.
  simpl in E. rewrite E.
  destruct (MELCloudAPI.parseSettings (MELCloudAPI.settings (device st))
              !! "VaneVerticalDirection") as [old|] eqn:Hold; simpl; [|done].
  unfold after_write. run_fields.
  by rewrite swing_target_written.
Qed.

Lemma swing_getActive_run (pf : Platform) (st : Accessory) :
  SwingFan.getActive pf st =
  let parsed := MELCloudAPI.parseSettings (MELCloudAPI.settings (device st)) in
  match parsed !! "VaneVerticalDirection" with
  | Some vane =>
      {| outcome := Returned (swing_target parsed vane);
         final := st; trace := [Log LogDebug] |}
  | None => {| outcome := Thrown TypeError; final := st; trace := [] |}
  end.
Proof.
  destruct st as [d svc]. unfold SwingFan.getActive, swing_target. run.
  by destruct (_ !! "VaneVerticalDirection").
Qed.

(* ===================================================================== *)
(** * Further properties: the mapping functions and the labels *)
(* ===================================================================== *)

(** X1. Quantisation rounds up: for a percentage p in [0,100], the
    percentage of the level [percentageToFanSpeed] chooses is the least
    multiple of 20 that is at least p; it is at least p and less than
    p + 20. *)
Theorem X1_quantisation_rounds_up (p : Q) :
  (0 <= p)%Q → (p <= 100)%Q →
  (p <= FanSpeedFan.fanSpeedToPercentage (FanSpeedFan.percentageToFanSpeed p))%Q ∧
  (FanSpeedFan.fanSpeedToPercentage (FanSpeedFan.percentageToFanSpeed p) < p + 20)%Q.
Proof.
  intros H0 H100. unfold FanSpeedFan.percentageToFanSpeed.
  number_cases; vm_compute FanSpeedFan.fanSpeedToPercentage; lra.
Qed.

Lemma X1_witness :
  (45 <= FanSpeedFan.fanSpeedToPercentage (FanSpeedFan.percentageToFanSpeed 45))%Q ∧
  (FanSpeedFan.fanSpeedToPercentage (FanSpeedFan.percentageToFanSpeed 45) < 45 + 20)%Q.
Proof. apply X1_quantisation_rounds_up; lra. Defined.

(** X2. Outside the declared range [percentageToFanSpeed] does not fail:
    every negative percentage gives "One" (so the function is not monotone
    across 0, which gives "Auto"), and every percentage above 100 gives
    "Five". *)
Theorem X2_percentage_out_of_range (p : Q) :
  ((p < 0)%Q → FanSpeedFan.percentageToFanSpeed p = "One") ∧
  ((100 < p)%Q → FanSpeedFan.percentageToFanSpeed p = "Five").
Proof.
  split; intros H; unfold FanSpeedFan.percentageToFanSpeed;
    number_cases; first [reflexivity | exfalso; lra].
Qed.

Lemma X2_witness :
  FanSpeedFan.percentageToFanSpeed (-5) = "One" ∧
  FanSpeedFan.percentageToFanSpeed 250 = "Five".
Proof.
  split.
  - apply (proj1 (X2_percentage_out_of_range (-5))). lra.
  - apply (proj2 (X2_percentage_out_of_range 250)). lra.
Defined.

(** X3. Canonical names: mapping a speed string to its percentage and
    back gives the canonical name of its level, for any case variant of
    the name and for the numeric alias; for every string whatsoever the
    result is one of the six canonical names. *)
Theorem X3_speed_name_canonical (l : SpeedLevel) (s : string) :
  (case_variant s (levelName l) = true ∨ s = levelAlias l →
     FanSpeedFan.percentageToFanSpeed (FanSpeedFan.fanSpeedToPercentage s)
       = levelName l) ∧
  (∃ l', FanSpeedFan.percentageToFanSpeed (FanSpeedFan.fanSpeedToPercentage s)
           = levelName l').
Proof.
  split.
  - intros [H| ->].
    + rewrite (fanSpeedToPercentage_case _ _ H). by destruct l.
    + by destruct l.
  - rewrite fanSpeedToPercentage_parseLevel. exists (parseLevel s).
    by destruct (parseLevel s).
Qed.

Lemma X3_witness :
  FanSpeedFan.percentageToFanSpeed (FanSpeedFan.fanSpeedToPercentage "fOUR") = "Four" ∧
  FanSpeedFan.percentageToFanSpeed (FanSpeedFan.fanSpeedToPercentage "2") = "Two".
Proof.
  split.
  - apply (proj1 (X3_speed_name_canonical Four "fOUR")). left. reflexivity.
  - apply (proj1 (X3_speed_name_canonical Two "2")). right. reflexivity.
Defined.





Lemma chars_append (a b : string) :
  String.list_ascii_of_string (String.append a b) =
  String.list_ascii_of_string a ++ String.list_ascii_of_string b.
Proof. induction a as [|c a IH]; simpl; [done|]. by rewrite IH. Qed.

Lemma chars_inj (a b : string) :
  String.list_ascii_of_string a = String.list_ascii_of_string b → a = b.
Proof.
  intros H. rewrite <- (String.string_of_list_ascii_of_string a),
    <- (String.string_of_list_ascii_of_string b). by rewrite H.
Qed.

Lemma append_suffix_inj (a b s t : string) :
  length (String.list_ascii_of_string s) = length (String.list_ascii_of_string t) →
  String.append a s = String.append b t → a = b ∧ s = t.
Proof.
  intros Hlen H. apply (f_equal String.list_ascii_of_string) in H.
  rewrite !chars_append in H. apply app_inj_2 in H as [Ha Hs]; [|done].
  split; by apply chars_inj.
Qed.

(** X5. The labels the constructors register tell the accessories apart:
    the serial number (and the name) of a fan accessory is never that of a
    swing accessory, whatever the devices, and two fan accessories, or two
    swing accessories, have the same serial number only when their
    devices have the same interface identifier. *)
Theorem X5_labels_distinct (d d' : MELCloudAPI.AirToAirUnit) :
  FanSpeedFan_SerialNumber d ≠ SwingFan_SerialNumber d' ∧
  FanSpeedFan_Name d ≠ SwingFan_Name d' ∧
  (FanSpeedFan_SerialNumber d = FanSpeedFan_SerialNumber d' →
     MELCloudAPI.connectedInterfaceIdentifier d
       = MELCloudAPI.connectedInterfaceIdentifier d') ∧
  (SwingFan_SerialNumber d = SwingFan_SerialNumber d' →
     MELCloudAPI.connectedInterfaceIdentifier d
       = MELCloudAPI.connectedInterfaceIdentifier d').
Proof.
  unfold FanSpeedFan_SerialNumber, SwingFan_SerialNumber, FanSpeedFan_Name,
    SwingFan_Name.
  split; [|split; [|split]].
  - intros H.
    assert (E : String.append (MELCloudAPI.connectedInterfaceIdentifier d') "-swing-control"
                = String.append (String.append (MELCloudAPI.connectedInterfaceIdentifier d') "-s")
                    "wing-control").
    { apply chars_inj. rewrite !chars_append, <- app_assoc. reflexivity. }
    rewrite E in H. apply append_suffix_inj in H as [_ H]; [discriminate|reflexivity].
  - intros H.
    assert (E : String.append (MELCloudAPI.givenDisplayName d') " Swing"
                = String.append (String.append (MELCloudAPI.givenDisplayName d') " S")
                    "wing").
    { apply chars_inj. rewrite !chars_append, <- app_assoc. reflexivity. }
    rewrite E in H. apply append_suffix_inj in H as [_ H]; [discriminate|reflexivity].
  - intros H. by apply append_suffix_inj in H as [H _].
  - intros H. by apply append_suffix_inj in H as [H _].
Qed.

Lemma X5_witness :
  MELCloudAPI.connectedInterfaceIdentifier (device (unit_with "True" "Auto" "Auto"))
  = MELCloudAPI.connectedInterfaceIdentifier (device (unit_with "False" "One" "Swing")).
Proof.
  apply (proj1 (proj2 (proj2 (X5_labels_distinct
           (device (unit_with "True" "Auto" "Auto"))
           (device (unit_with "False" "One" "Swing")))))).
  reflexivity.
Defined.

(* ===================================================================== *)
(** * Further properties: reads and reconciliation *)
(* ===================================================================== *)

Lemma fan_setActive_run (value : CharacteristicValue) (pf : Platform)
    (st : Accessory) :
  FanSpeedFan.setActive value pf st =
  prepend [Log LogInfo]
    (FanSpeedFan.setFanSpeed (if value_is value ACTIVE then "Five" else "Auto") pf st).
Proof. unfold FanSpeedFan.setActive. by destruct (value_is value ACTIVE). Qed.

Lemma refreshes_app (t u : list Event) :
  refreshes (t ++ u) = (refreshes t + refreshes u)%nat.
Proof. unfold refreshes. by rewrite omap_app, length_app. Qed.

Lemma sync_trace_refreshes (c : Characteristic) (t : Q)
    (cur : option CharacteristicValue) :
  refreshes (sync_trace c t cur) = 0%nat.
Proof. unfold sync_trace. by destruct (differs t cur). Qed.

(** X6. Every write of the fan variant sends exactly one command, with the
    power forced on, the speed "Five" or "Auto" for [setActive] (by the
    value being the number ACTIVE or not) and the quantised level for
    [setRotationSpeed], and every other field as the cached settings have
    it (absent when they have none). *)
Theorem X6_fan_write_commands (value : CharacteristicValue) (p : Q)
    (pf : Platform) (st : Accessory) :
  let parsed := MELCloudAPI.parseSettings (MELCloudAPI.settings (device st)) in
  let command speed :=
    {| MELCloudAPI.power := true;
       MELCloudAPI.operationMode := parsed !! "OperationMode";
       MELCloudAPI.setFanSpeed := Some speed;
       MELCloudAPI.vaneHorizontalDirection := parsed !! "VaneHorizontalDirection";
       MELCloudAPI.vaneVerticalDirection := parsed !! "VaneVerticalDirection";
       MELCloudAPI.setTemperature := parsed !! "SetTemperature";
       MELCloudAPI.temperatureIncrementOverride := None;
       MELCloudAPI.inStandbyMode := None |} in
  commands (trace (FanSpeedFan.setActive value pf st)) =
    [(MELCloudAPI.id (device st),
      command (if value_is value ACTIVE then "Five" else "Auto"))] ∧
  commands (trace (FanSpeedFan.setRotationSpeed p pf st)) =
    [(MELCloudAPI.id (device st), command (FanSpeedFan.percentageToFanSpeed p))].
Proof.
  cbv zeta. split.
  - rewrite fan_setActive_run. unfold prepend. run_fields.
    change (commands (Log LogInfo :: ?t)) with (commands t).
    by rewrite fan_setFanSpeed_commands.
  - rewrite fan_setRotationSpeed_run. unfold prepend. run_fields.
    change (commands (Log LogInfo :: ?t)) with (commands t).
    by rewrite fan_setFanSpeed_commands.
Qed.

(** X7. The read handlers only read: [getActive] and [getRotationSpeed] of
    the fan variant and [getActive] of the swing variant leave the
    accessory as it is, send no remote command, publish nothing and
    request no refresh, whether they return or raise. *)
Theorem X7_reads_change_nothing (pf : Platform) (st : Accessory) :
  let quiet (A : Type) (r : Run A) :=
    final r = st ∧ commands (trace r) = [] ∧ publishes (trace r) = [] ∧
    refreshes (trace r) = 0%nat in
  quiet Q (FanSpeedFan.getActive pf st) ∧
  quiet Q (FanSpeedFan.getRotationSpeed pf st) ∧
  quiet Q (SwingFan.getActive pf st).
Proof.
  cbv zeta.
  rewrite fan_getActive_run, fan_getRotationSpeed_run, swing_getActive_run.
  cbv zeta.
  by destruct (_ !! "SetFanSpeed"), (_ !! "VaneVerticalDirection").
Qed.

(** X8. On the spellings the fan variant itself writes and the numeric
    aliases (exact case), Active and RotationSpeed agree: with SetFanSpeed
    the name or the alias of a level, [getRotationSpeed] returns the
    percentage of the level, and [getActive] returns ACTIVE exactly when
    Power is "True" and the level is not Auto, INACTIVE otherwise. *)
Theorem X8_fan_reads_on_canonical (l : SpeedLevel) (s : string)
    (pf : Platform) (st : Accessory) :
  let parsed := MELCloudAPI.parseSettings (MELCloudAPI.settings (device st)) in
  parsed !! "SetFanSpeed" = Some s → s = levelName l ∨ s = levelAlias l →
  outcome (FanSpeedFan.getRotationSpeed pf st) = Returned (levelPercentage l) ∧
  (outcome (FanSpeedFan.getActive pf st) = Returned ACTIVE ∨
   outcome (FanSpeedFan.getActive pf st) = Returned INACTIVE) ∧
  (outcome (FanSpeedFan.getActive pf st) = Returned ACTIVE ↔
     parsed !! "Power" = Some "True" ∧ l ≠ Auto).
Proof.
  cbv zeta. intros Hs Hl.
  rewrite fan_getRotationSpeed_run, fan_getActive_run, Hs. unfold fan_target.
  rewrite Hs. simpl. split; [|split].
  - f_equal. destruct Hl as [-> | ->]; by destruct l.
  - destruct (_ && _); auto.
  - destruct (_ !! "Power") as [pw|] eqn:Hp; simpl.
    + destruct (String.eqb pw "True") eqn:E;
        [apply String.eqb_eq in E as ->|apply String.eqb_neq in E]; simpl.
      * destruct Hl as [-> | ->]; destruct l; simpl; split;
          first [ discriminate | by intros [_ H] | done ].
      * split; [discriminate|]. intros [H _]. congruence.
    + split; [discriminate|]. by intros [H _].
Qed.

Lemma X8_witness :
  outcome (FanSpeedFan.getRotationSpeed platform_accepting
             (unit_with "True" "3" "Auto")) = Returned (levelPercentage Three) ∧
  outcome (FanSpeedFan.getActive platform_accepting
             (unit_with "True" "3" "Auto")) = Returned ACTIVE.
Proof.
  destruct (X8_fan_reads_on_canonical Three "3" platform_accepting
              (unit_with "True" "3" "Auto") eq_refl (or_intror eq_refl))
    as (H1 & _ & H2).
  split; [exact H1|]. apply H2. split; [reflexivity|discriminate].
Defined.

Lemma normalizeVane_is_swing (vane : string) :
  String.eqb (SwingFan.normalizeVane vane) "swing" = true ↔
  toLowerCase vane = "6" ∨ toLowerCase vane = "six" ∨
  toLowerCase vane = "7" ∨ toLowerCase vane = "swing".
Proof.
  rewrite String.eqb_eq. unfold SwingFan.normalizeVane. cbv zeta.
  string_cases;
    repeat match goal with
    | H : toLowerCase vane = _ |- _ => rewrite H in *
    end;
    split; intros; try discriminate; try congruence; intuition congruence.
Qed.

(** X9. [getActive] of the swing variant: without a
    VaneVerticalDirection entry it raises a TypeError, whatever the power;
    with one it returns ACTIVE exactly when Power is "True" and the
    lowercased direction is "6", "six", "7" or "swing", and INACTIVE
    otherwise: the power gates the swing. *)
Theorem X9_swing_getActive (vane : string) (pf : Platform) (st : Accessory) :
  let parsed := MELCloudAPI.parseSettings (MELCloudAPI.settings (device st)) in
  (parsed !! "VaneVerticalDirection" = None →
     outcome (SwingFan.getActive pf st) = Thrown TypeError) ∧
  (parsed !! "VaneVerticalDirection" = Some vane →
     (outcome (SwingFan.getActive pf st) = Returned ACTIVE ∨
      outcome (SwingFan.getActive pf st) = Returned INACTIVE) ∧
     (outcome (SwingFan.getActive pf st) = Returned ACTIVE ↔
        parsed !! "Power" = Some "True" ∧
        (toLowerCase vane = "6" ∨ toLowerCase vane = "six" ∨
         toLowerCase vane = "7" ∨ toLowerCase vane = "swing"))).
Proof.
  cbv zeta. rewrite swing_getActive_run. cbv zeta. split; intros ->; [done|].
  unfold swing_target. simpl.
  pose proof (normalizeVane_is_swing vane) as Hsw.
  destruct (String.eqb (SwingFan.normalizeVane vane) "swing");
    destruct (_ !! "Power") as [pw|]; simpl;
    [destruct (String.eqb pw "True") eqn:E;
       [apply String.eqb_eq in E as ->|apply String.eqb_neq in E]; simpl | |
     destruct (String.eqb pw "True"); simpl | ];
    (split; [auto|]); split;
    first [ discriminate
          | intros _; split; [reflexivity|by apply Hsw]
          | intros [H _]; congruence
          | intros [_ H]; apply Hsw in H; discriminate ].
Qed.

Lemma X9_witness :
  outcome (SwingFan.getActive platform_accepting (unit_partial "True"))
    = Thrown TypeError ∧
  outcome (SwingFan.getActive platform_accepting (unit_with "False" "Auto" "Swing"))
    = Returned INACTIVE.
Proof.
  split.
  - apply (proj1 (X9_swing_getActive "" platform_accepting (unit_partial "True"))).
    reflexivity.
  - destruct (proj2 (X9_swing_getActive "Swing" platform_accepting
                       (unit_with "False" "Auto" "Swing")) eq_refl) as [[H|H] _].
    + discriminate H.
    + exact H.
Defined.

(** X10. Reconciliation makes the published state agree with the reads:
    when [updateFromDevice] returns, the value the bridge holds for Active
    (and, on the fan variant, for RotationSpeed) is the one the read
    handler then returns from the new device. *)
Theorem X10_refresh_agrees_with_reads (dev : MELCloudAPI.AirToAirUnit)
    (pf : Platform) (st : Accessory) :
  (outcome (FanSpeedFan.updateFromDevice dev pf st) = Returned tt →
     ∃ a p,
       outcome (FanSpeedFan.getActive pf
                  (final (FanSpeedFan.updateFromDevice dev pf st))) = Returned a ∧
       outcome (FanSpeedFan.getRotationSpeed pf
                  (final (FanSpeedFan.updateFromDevice dev pf st))) = Returned p ∧
       differs a (Active_value
                    (service (final (FanSpeedFan.updateFromDevice dev pf st)))) = false ∧
       differs p (RotationSpeed_value
                    (service (final (FanSpeedFan.updateFromDevice dev pf st)))) = false) ∧
  (outcome (SwingFan.updateFromDevice dev pf st) = Returned tt →
     ∃ a,
       outcome (SwingFan.getActive pf
                  (final (SwingFan.updateFromDevice dev pf st))) = Returned a ∧
       differs a (Active_value
                    (service (final (SwingFan.updateFromDevice dev pf st)))) = false).
Proof.
  split.
  - rewrite fan_updateFromDevice_run. cbv zeta.
    destruct (_ !! "SetFanSpeed") as [fanSpeed|] eqn:E; [|discriminate].
    intros _. run_fields.
    rewrite fan_getActive_run, fan_getRotationSpeed_run. run_fields. rewrite E.
    eexists _, _. repeat split; apply sync_value_fixed.
  - rewrite swing_updateFromDevice_run. cbv zeta.
    destruct (_ !! "VaneVerticalDirection") as [vane|] eqn:E; [|discriminate].
    intros _. run_fields.
    rewrite swing_getActive_run. cbv zeta. run_fields. rewrite E.
    eexists. split; [reflexivity|]. apply sync_value_fixed.
Qed.

Lemma X10_witness :
  ∃ a p,
    outcome (FanSpeedFan.getActive platform_rejecting
               (final (FanSpeedFan.updateFromDevice
                         (device (unit_with "True" "four" "Auto")) platform_rejecting
                         (unit_partial "False")))) = Returned a ∧
    outcome (FanSpeedFan.getRotationSpeed platform_rejecting
               (final (FanSpeedFan.updateFromDevice
                         (device (unit_with "True" "four" "Auto")) platform_rejecting
                         (unit_partial "False")))) = Returned p ∧
    differs a (Active_value (service (final (FanSpeedFan.updateFromDevice
                         (device (unit_with "True" "four" "Auto")) platform_rejecting
                         (unit_partial "False"))))) = false ∧
    differs p (RotationSpeed_value (service (final (FanSpeedFan.updateFromDevice
                         (device (unit_with "True" "four" "Auto")) platform_rejecting
                         (unit_partial "False"))))) = false.
Proof.
  apply (proj1 (X10_refresh_agrees_with_reads
                  (device (unit_with "True" "four" "Auto")) platform_rejecting
                  (unit_partial "False"))).
  reflexivity.
Defined.

(** X11. [updateFromDevice] is local: on both variants it always takes the
    new device, never sends a remote command and never requests a refresh;
    on the swing variant it never touches RotationSpeed.  A device whose
    settings lack the entry the variant reads (SetFanSpeed, resp.
    VaneVerticalDirection) makes it raise a TypeError with nothing
    published and the published values as they were. *)
Theorem X11_refresh_is_local (dev : MELCloudAPI.AirToAirUnit) (pf : Platform)
    (st : Accessory) :
  let parsed := MELCloudAPI.parseSettings (MELCloudAPI.settings dev) in
  let rf := FanSpeedFan.updateFromDevice dev pf st in
  let rs := SwingFan.updateFromDevice dev pf st in
  (device (final rf) = dev ∧ commands (trace rf) = [] ∧ refreshes (trace rf) = 0%nat) ∧
  (device (final rs) = dev ∧ commands (trace rs) = [] ∧ refreshes (trace rs) = 0%nat ∧
   RotationSpeed_value (service (final rs)) = RotationSpeed_value (service st) ∧
   ∀ v, (RotationSpeed, v) ∉ publishes (trace rs)) ∧
  (parsed !! "SetFanSpeed" = None →
     outcome rf = Thrown TypeError ∧ trace rf = [] ∧ service (final rf) = service st) ∧
  (parsed !! "VaneVerticalDirection" = None →
     outcome rs = Thrown TypeError ∧ trace rs = [] ∧ service (final rs) = service st).
Proof.
  cbv zeta. split; [|split; [|split]].
  - split; [apply fan_updateFromDevice_device|].
    split; [apply fan_updateFromDevice_commands|].
    rewrite fan_updateFromDevice_run. cbv zeta.
    destruct (_ !! "SetFanSpeed"); run_fields; [|done].
    by rewrite refreshes_app, !sync_trace_refreshes.
  - split; [apply swing_updateFromDevice_device|].
    split; [apply swing_updateFromDevice_commands|].
    split; [|split].
    + rewrite swing_updateFromDevice_run. cbv zeta.
      destruct (_ !! "VaneVerticalDirection"); run_fields; [|done].
      apply sync_trace_refreshes.
    + rewrite swing_updateFromDevice_run. cbv zeta.
      by destruct (_ !! "VaneVerticalDirection").
    + intros v H. by apply swing_updateFromDevice_publishes in H as [H _].
  - intros E. rewrite fan_updateFromDevice_run. cbv zeta. by rewrite E.
  - intros E. rewrite swing_updateFromDevice_run. cbv zeta. by rewrite E.
Qed.

Lemma X11_witness :
  outcome (FanSpeedFan.updateFromDevice (device (unit_partial "True"))
             platform_accepting (unit_with "True" "Two" "Auto")) = Thrown TypeError ∧
  trace (FanSpeedFan.updateFromDevice (device (unit_partial "True"))
           platform_accepting (unit_with "True" "Two" "Auto")) = [] ∧
  service (final (FanSpeedFan.updateFromDevice (device (unit_partial "True"))
                    platform_accepting (unit_with "True" "Two" "Auto")))
    = service (unit_with "True" "Two" "Auto").
Proof.
  apply (proj1 (proj2 (proj2 (X11_refresh_is_local (device (unit_partial "True"))
           platform_accepting (unit_with "True" "Two" "Auto"))))).
  reflexivity.
Defined.

(* ===================================================================== *)
(** * Further properties: writes *)
(* ===================================================================== *)

(** X12. A write on settings that lack the entry it changes is reported
    as a communication failure although the remote command was accepted:
    the fan variant without a SetFanSpeed entry (resp. the swing variant
    without a VaneVerticalDirection entry) has sent its command and
    rewritten its cache (on the fan variant Power becomes "True"), then
    fails in its reconciliation; nothing is published, no refresh is
    requested, the published values stay, and the entry is not added. *)
Theorem X12_write_without_entry (v : string) (pf : Platform) (st : Accessory) :
  let parsed := MELCloudAPI.parseSettings (MELCloudAPI.settings (device st)) in
  let rf := FanSpeedFan.setFanSpeed v pf st in
  let rs := SwingFan.setVanePosition v pf st in
  (parsed !! "SetFanSpeed" = None → remote_calls_succeed pf (trace rf) →
     outcome rf = Thrown (HapStatusError SERVICE_COMMUNICATION_FAILURE) ∧
     fan_fields_replaced v (MELCloudAPI.settings (device st))
       (MELCloudAPI.settings (device (final rf))) ∧
     MELCloudAPI.parseSettings (MELCloudAPI.settings (device (final rf)))
       !! "SetFanSpeed" = None ∧
     service (final rf) = service st ∧
     publishes (trace rf) = [] ∧ refreshes (trace rf) = 0%nat) ∧
  (parsed !! "VaneVerticalDirection" = None → remote_calls_succeed pf (trace rs) →
     outcome rs = Thrown (HapStatusError SERVICE_COMMUNICATION_FAILURE) ∧
     only_field_replaced "VaneVerticalDirection" v (MELCloudAPI.settings (device st))
       (MELCloudAPI.settings (device (final rs))) ∧
     MELCloudAPI.parseSettings (MELCloudAPI.settings (device (final rs)))
       !! "VaneVerticalDirection" = None ∧
     service (final rs) = service st ∧
     publishes (trace rs) = [] ∧ refreshes (trace rs) = 0%nat).
Proof.
  cbv zeta. split; intros E H.
  - pose proof (H _ _ ltac:(rewrite fan_setFanSpeed_commands; apply list_elem_of_here)) as Hc.
    rewrite fan_setFanSpeed_full. cbv zeta. rewrite Hc, E. run_fields.
    change (MELCloudAPI.settings (with_settings ?d ?l)) with l.
    repeat split; [apply fan_entry_replaced|].
    pose proof (fan_entry_parse v "SetFanSpeed" (MELCloudAPI.settings (device st))) as P.
    simpl in P. by rewrite P, E.
  - pose proof (H _ _ ltac:(rewrite swing_setVanePosition_commands; apply list_elem_of_here)) as Hc.
    rewrite swing_setVanePosition_full. cbv zeta. rewrite Hc, E. run_fields.
    change (MELCloudAPI.settings (with_settings ?d ?l)) with l.
    repeat split; [apply swing_entry_replaced|].
    pose proof (swing_entry_parse v "VaneVerticalDirection"
                  (MELCloudAPI.settings (device st))) as P.
    simpl in P. by rewrite P, E.
Qed.

Lemma X12_witness :
  outcome (FanSpeedFan.setFanSpeed "Two" platform_accepting (unit_partial "False"))
    = Thrown (HapStatusError SERVICE_COMMUNICATION_FAILURE) ∧
  outcome (SwingFan.setVanePosition "Swing" platform_accepting (unit_partial "False"))
    = Thrown (HapStatusError SERVICE_COMMUNICATION_FAILURE).
Proof.
  split.
  - apply (proj1 (X12_write_without_entry "Two" platform_accepting
                    (unit_partial "False"))); [reflexivity|].
    intros i cmd _. reflexivity.
  - apply (proj2 (X12_write_without_entry "Swing" platform_accepting
                    (unit_partial "False"))); [reflexivity|].
    intros i cmd _. reflexivity.
Defined.

Lemma sync_trace_fixed (c : Characteristic) (t : Q)
    (cur : option CharacteristicValue) :
  sync_trace c t (sync_value t cur) = [].
Proof. unfold sync_trace. by rewrite sync_value_fixed. Qed.

Lemma sync_value_idem (t : Q) (cur : option CharacteristicValue) :
  sync_value t (sync_value t cur) = sync_value t cur.
Proof. unfold sync_value at 1. by rewrite sync_value_fixed. Qed.

Lemma sync_trace_publishes_active (t : Q) (cur : option CharacteristicValue) (v : Q) :
  (RotationSpeed, v) ∉ publishes (sync_trace Active t cur).
Proof. intros H. by apply sync_trace_publishes in H as [H _]. Qed.

(** X13. The order of a write, on both variants: the remote command is the
    first call after the opening log line and the only remote command;
    values are published and a refresh is requested only when the write
    returns, and then the refresh is requested exactly once, as the last
    call; a write that raises ends with the error log line instead. *)
Theorem X13_write_order (v : string) (pf : Platform) (st : Accessory) :
  let shape (lvl : LogLevel) (r : Run unit) :=
    (∃ i cmd mid, trace r = Log lvl :: ControlDevice i cmd :: mid ∧
                  commands mid = []) ∧
    (outcome r = Returned tt →
       refreshes (trace r) = 1%nat ∧ last (trace r) = Some ScheduleRefresh) ∧
    (outcome r ≠ Returned tt →
       refreshes (trace r) = 0%nat ∧ publishes (trace r) = [] ∧
       last (trace r) = Some (Log LogError)) in
  shape LogDebug (FanSpeedFan.setFanSpeed v pf st) ∧
  shape LogInfo (SwingFan.setVanePosition v pf st).
Proof.
  cbv zeta. split.
  - rewrite fan_setFanSpeed_full. cbv zeta.
    destruct (controlDevice pf _ _); [|destruct (_ !! "SetFanSpeed")]; run_fields.
    + split; [by eexists _, _, _|]. split; [discriminate|done].
    + split; [|split; [|done]].
      * eexists _, _, _. split; [reflexivity|].
        unfold commands. rewrite !omap_app. fold commands.
        by rewrite !sync_trace_commands.
      * intros _. split.
        -- change (refreshes (Log LogDebug :: ControlDevice ?i ?c :: ?t))
             with (refreshes t).
           by rewrite !refreshes_app, !sync_trace_refreshes.
        -- rewrite app_comm_cons, app_comm_cons. apply last_snoc.
    + split; [by eexists _, _, _|]. split; [discriminate|done].
  - rewrite swing_setVanePosition_full. cbv zeta.
    destruct (controlDevice pf _ _); [|destruct (_ !! "VaneVerticalDirection")];
      run_fields.
    + split; [by eexists _, _, _|]. split; [discriminate|done].
    + split; [|split; [|done]].
      * eexists _, _, _. split; [reflexivity|].
        unfold commands. rewrite !omap_app. fold commands.
        by rewrite !sync_trace_commands.
      * intros _. split.
        -- change (refreshes (Log LogInfo :: ControlDevice ?i ?c :: ?t))
             with (refreshes t).
           by rewrite !refreshes_app, !sync_trace_refreshes.
        -- rewrite app_comm_cons, app_comm_cons. apply last_snoc.
    + split; [by eexists _, _, _|]. split; [discriminate|done].
Qed.

Lemma X13_witness :
  refreshes (trace (FanSpeedFan.setFanSpeed "One" platform_accepting
                      (unit_with "False" "Auto" "Auto"))) = 1%nat ∧
  last (trace (SwingFan.setVanePosition "Swing" platform_rejecting
                 (unit_with "True" "Auto" "Auto"))) = Some (Log LogError).
Proof.
  split.
  - apply (proj1 (proj2 (proj1 (X13_write_order "One" platform_accepting
             (unit_with "False" "Auto" "Auto"))))). reflexivity.
  - apply (proj2 (proj2 (proj2 (X13_write_order "Swing" platform_rejecting
             (unit_with "True" "Auto" "Auto"))))). discriminate.
Defined.

(** X14. What a fan write that returned leaves behind: the cached
    SetFanSpeed is the written speed, the cached Power is "True" when the
    settings have a Power entry (and still absent when they have none),
    every other field parses as before, [getRotationSpeed] returns the
    percentage of the written speed, and the published Active and
    RotationSpeed agree with what the read handlers return. *)
Theorem X14_fan_write_reads_back (v : string) (pf : Platform) (st : Accessory) :
  let parsed := MELCloudAPI.parseSettings (MELCloudAPI.settings (device st)) in
  let st' := final (FanSpeedFan.setFanSpeed v pf st) in
  let parsed' := MELCloudAPI.parseSettings (MELCloudAPI.settings (device st')) in
  outcome (FanSpeedFan.setFanSpeed v pf st) = Returned tt →
  parsed' !! "SetFanSpeed" = Some v ∧
  parsed' !! "Power" = (λ _, "True") <$> parsed !! "Power" ∧
  (∀ k, k ≠ "SetFanSpeed" → k ≠ "Power" → parsed' !! k = parsed !! k) ∧
  outcome (FanSpeedFan.getRotationSpeed pf st')
    = Returned (FanSpeedFan.fanSpeedToPercentage v) ∧
  differs (FanSpeedFan.fanSpeedToPercentage v)
    (RotationSpeed_value (service st')) = false ∧
  ∃ a, outcome (FanSpeedFan.getActive pf st') = Returned a ∧
       differs a (Active_value (service st')) = false.
Proof.
  cbv zeta. rewrite fan_setFanSpeed_full. cbv zeta.
  destruct (controlDevice pf _ _); [discriminate|].
  destruct (_ !! "SetFanSpeed") as [old|] eqn:E; [|discriminate].
  intros _. run_fields.
  change (MELCloudAPI.settings (with_settings ?d ?l)) with l.
  pose proof (fan_entry_parse v "SetFanSpeed" (MELCloudAPI.settings (device st))) as P.
  simpl in P. rewrite E in P. simpl in P.
  split; [exact P|]. split; [apply (fan_entry_parse v "Power")|].
  split.
  { intros k H1 H2. rewrite fan_entry_parse.
    apply String.eqb_neq in H1, H2. by rewrite H1, H2. }
  rewrite fan_getRotationSpeed_run, fan_getActive_run. run_fields.
  change (MELCloudAPI.settings (with_settings ?d ?l)) with l. rewrite P.
  split; [done|]. split; [apply sync_value_fixed|].
  eexists. split; [reflexivity|].
  rewrite fan_target_written by (rewrite E; eauto). apply sync_value_fixed.
Qed.

Lemma X14_witness :
  MELCloudAPI.parseSettings
    (MELCloudAPI.settings
       (device (final (FanSpeedFan.setFanSpeed "Four" platform_accepting
                         (unit_with "False" "Auto" "Auto"))))) !! "SetFanSpeed"
  = Some "Four".
Proof.
  apply (X14_fan_write_reads_back "Four" platform_accepting
           (unit_with "False" "Auto" "Auto")).
  reflexivity.
Defined.

Lemma fan_command_rewritten (v w : string) (l : list MELCloudAPI.Setting) :
  fan_command (MELCloudAPI.parseSettings (fan_entry w <$> l)) v =
  fan_command (MELCloudAPI.parseSettings l) v.
Proof. unfold fan_command. by rewrite !fan_entry_parse. Qed.

Lemma fan_written_target_rewritten (v w : string) (l : list MELCloudAPI.Setting) :
  fan_written_target (MELCloudAPI.parseSettings (fan_entry w <$> l)) v =
  fan_written_target (MELCloudAPI.parseSettings l) v.
Proof.
  unfold fan_written_target. rewrite (fan_entry_parse w "Power"). simpl.
  by destruct (_ !! "Power").
Qed.

Lemma fan_entry_idem (v : string) (s : MELCloudAPI.Setting) :
  fan_entry v (fan_entry v s) = fan_entry v s.
Proof.
  unfold fan_entry.
  destruct (String.eqb (MELCloudAPI.name s) "SetFanSpeed") eqn:E1; simpl.
  - by rewrite E1.
  - destruct (String.eqb (MELCloudAPI.name s) "Power") eqn:E2; simpl.
    + by rewrite E1, E2.
    + by rewrite E1, E2.
Qed.

Lemma swing_entry_idem (v : string) (s : MELCloudAPI.Setting) :
  swing_entry v (swing_entry v s) = swing_entry v s.
Proof.
  unfold swing_entry.
  destruct (String.eqb (MELCloudAPI.name s) "VaneVerticalDirection") eqn:E1; simpl;
    by rewrite E1.
Qed.

(** X15. Turning the fan accessory on or off, when the write returns and
    the settings have a Power entry: the cached Power is "True" in both
    cases (turning the accessory off also powers the unit on); after
    [setActive] with ACTIVE the reads give ACTIVE and 100, with any other
    value INACTIVE and 0. *)
Theorem X15_fan_turn_on_off (value : CharacteristicValue) (pf : Platform)
    (st : Accessory) :
  let parsed := MELCloudAPI.parseSettings (MELCloudAPI.settings (device st)) in
  let st' := final (FanSpeedFan.setActive value pf st) in
  outcome (FanSpeedFan.setActive value pf st) = Returned tt →
  is_Some (parsed !! "Power") →
  MELCloudAPI.parseSettings (MELCloudAPI.settings (device st')) !! "Power"
    = Some "True" ∧
  outcome (FanSpeedFan.getActive pf st')
    = Returned (if value_is value ACTIVE then ACTIVE else INACTIVE) ∧
  outcome (FanSpeedFan.getRotationSpeed pf st')
    = Returned (if value_is value ACTIVE then 100%Q else 0%Q).
Proof.
  cbv zeta. rewrite fan_setActive_run. unfold prepend. run_fields.
  set (v := if value_is value ACTIVE then "Five" else "Auto").
  rewrite fan_setFanSpeed_full. cbv zeta.
  destruct (controlDevice pf _ _); [discriminate|].
  destruct (_ !! "SetFanSpeed") as [old|] eqn:E; [|discriminate].
  intros _ [pw Hpw]. run_fields.
  change (MELCloudAPI.settings (with_settings ?d ?l)) with l.
  rewrite fan_getRotationSpeed_run, fan_getActive_run. run_fields.
  change (MELCloudAPI.settings (with_settings ?d ?l)) with l.
  rewrite fan_target_written by (rewrite E; eauto).
  pose proof (fan_entry_parse v "SetFanSpeed" (MELCloudAPI.settings (device st))) as P.
  pose proof (fan_entry_parse v "Power" (MELCloudAPI.settings (device st))) as P'.
  simpl in P, P'. rewrite P, P', E, Hpw. simpl.
  unfold fan_written_target. rewrite Hpw. subst v.
  by destruct (value_is value ACTIVE).
Qed.

Lemma X15_witness :
  MELCloudAPI.parseSettings
    (MELCloudAPI.settings
       (device (final (FanSpeedFan.setActive (CNumber 0) platform_accepting
                         (unit_with "False" "Three" "Auto"))))) !! "Power"
    = Some "True" ∧
  outcome (FanSpeedFan.getActive platform_accepting
             (final (FanSpeedFan.setActive (CNumber 0) platform_accepting
                       (unit_with "False" "Three" "Auto"))))
    = Returned INACTIVE ∧
  outcome (FanSpeedFan.getRotationSpeed platform_accepting
             (final (FanSpeedFan.setActive (CNumber 0) platform_accepting
                       (unit_with "False" "Three" "Auto"))))
    = Returned 0%Q.
Proof.
  apply (X15_fan_turn_on_off (CNumber 0) platform_accepting
           (unit_with "False" "Three" "Auto")).
  - reflexivity.
  - vm_compute. eauto.
Defined.

(** X16. Setting a rotation speed p in [0,100] and reading it back, when
    the write returns: [getRotationSpeed] gives p rounded up to the grid
    (at least p, less than p + 20, one of the six values); with a Power
    entry in the settings, [getActive] gives INACTIVE for p = 0 and ACTIVE
    for every other p. *)
Theorem X16_rotation_speed_reads_back (p : Q) (pf : Platform) (st : Accessory) :
  let parsed := MELCloudAPI.parseSettings (MELCloudAPI.settings (device st)) in
  let st' := final (FanSpeedFan.setRotationSpeed p pf st) in
  (0 <= p)%Q → (p <= 100)%Q →
  outcome (FanSpeedFan.setRotationSpeed p pf st) = Returned tt →
  (∃ q, outcome (FanSpeedFan.getRotationSpeed pf st') = Returned q ∧
        (p <= q)%Q ∧ (q < p + 20)%Q ∧
        on_grid FanSpeedFan.RotationSpeed_props q) ∧
  (is_Some (parsed !! "Power") →
     outcome (FanSpeedFan.getActive pf st')
       = Returned (if Qeq_bool p 0 then INACTIVE else ACTIVE)).
Proof.
  cbv zeta. intros H0 H100.
  rewrite fan_setRotationSpeed_run. unfold prepend. run_fields.
  set (v := FanSpeedFan.percentageToFanSpeed p).
  rewrite fan_setFanSpeed_full. cbv zeta.
  destruct (controlDevice pf _ _); [discriminate|].
  destruct (_ !! "SetFanSpeed") as [old|] eqn:E; [|discriminate].
  intros _. run_fields.
  rewrite fan_getRotationSpeed_run, fan_getActive_run. run_fields.
  change (MELCloudAPI.settings (with_settings ?d ?l)) with l.
  rewrite fan_target_written by (rewrite E; eauto).
  pose proof (fan_entry_parse v "SetFanSpeed" (MELCloudAPI.settings (device st))) as P.
  simpl in P. rewrite P, E. simpl. split.
  - eexists. split; [reflexivity|].
    split; [|split].
    + subst v. unfold FanSpeedFan.percentageToFanSpeed.
      number_cases; vm_compute FanSpeedFan.fanSpeedToPercentage; lra.
    + subst v. unfold FanSpeedFan.percentageToFanSpeed.
      number_cases; vm_compute FanSpeedFan.fanSpeedToPercentage; lra.
    + destruct (fanSpeedToPercentage_values v) as [l ->].
      apply levelPercentage_on_grid.
  - intros [pw Hpw]. unfold fan_written_target. rewrite Hpw. subst v.
    unfold FanSpeedFan.percentageToFanSpeed.
    destruct (Qeq_bool p 0); [done|].
    by repeat (destruct (Qle_bool p _); [done|]).
Qed.

Lemma X16_witness :
  (∃ q, outcome (FanSpeedFan.getRotationSpeed platform_accepting
                   (final (FanSpeedFan.setRotationSpeed 45 platform_accepting
                             (unit_with "False" "Auto" "Auto")))) = Returned q ∧
        (45 <= q)%Q ∧ (q < 45 + 20)%Q ∧
        on_grid FanSpeedFan.RotationSpeed_props q) ∧
  outcome (FanSpeedFan.getActive platform_accepting
             (final (FanSpeedFan.setRotationSpeed 45 platform_accepting
                       (unit_with "False" "Auto" "Auto")))) = Returned ACTIVE.
Proof.
  destruct (X16_rotation_speed_reads_back 45 platform_accepting
              (unit_with "False" "Auto" "Auto")
              ltac:(lra) ltac:(lra) eq_refl) as [H1 H2].
  split; [exact H1|]. apply H2. vm_compute. eauto.
Defined.

(** X17. Turning the swing accessory on or off, when the write returns:
    the cached VaneVerticalDirection is "Swing" or "Auto", and [getActive]
    then gives ACTIVE only if the value was ACTIVE and the cached Power is
    "True"; turning the swing on while the unit is off leaves the
    accessory INACTIVE.  The published Active agrees with the read and
    RotationSpeed is not touched. *)
Theorem X17_swing_turn_on_off (value : CharacteristicValue) (pf : Platform)
    (st : Accessory) :
  let parsed := MELCloudAPI.parseSettings (MELCloudAPI.settings (device st)) in
  let st' := final (SwingFan.setActive value pf st) in
  let a := if value_is value ACTIVE && ((parsed !! "Power") === "True")
           then ACTIVE else INACTIVE in
  outcome (SwingFan.setActive value pf st) = Returned tt →
  MELCloudAPI.parseSettings (MELCloudAPI.settings (device st'))
    !! "VaneVerticalDirection"
    = Some (if value_is value ACTIVE then "Swing" else "Auto") ∧
  outcome (SwingFan.getActive pf st') = Returned a ∧
  differs a (Active_value (service st')) = false ∧
  RotationSpeed_value (service st') = RotationSpeed_value (service st) ∧
  (∀ x, (RotationSpeed, x) ∉ publishes (trace (SwingFan.setActive value pf st))).
Proof.
  cbv zeta. rewrite swing_setActive_run. unfold prepend. run_fields.
  set (v := if value_is value ACTIVE then "Swing" else "Auto").
  rewrite swing_setVanePosition_full. cbv zeta.
  destruct (controlDevice pf _ _); [discriminate|].
  destruct (_ !! "VaneVerticalDirection") as [old|] eqn:E; [|discriminate].
  intros _. run_fields.
  change (MELCloudAPI.settings (with_settings ?d ?l)) with l.
  pose proof (swing_entry_parse v "VaneVerticalDirection"
                (MELCloudAPI.settings (device st))) as P.
  simpl in P. rewrite E in P. simpl in P.
  assert (T : swing_target
                (MELCloudAPI.parseSettings (MELCloudAPI.settings (device st))) v
              = if value_is value ACTIVE
                   && ((MELCloudAPI.parseSettings (MELCloudAPI.settings (device st))
                          !! "Power") === "True")
                then ACTIVE else INACTIVE).
  { unfold swing_target. subst v.
    destruct (value_is value ACTIVE); simpl; [by rewrite andb_true_r|].
    by rewrite andb_false_r. }
  split; [exact P|].
  rewrite swing_getActive_run. cbv zeta. run_fields.
  change (MELCloudAPI.settings (with_settings ?d ?l)) with l.
  rewrite P, swing_target_written, <- T.
  split; [done|]. split; [apply sync_value_fixed|]. split; [done|].
  intros x Hx.
  change (publishes (Log LogInfo :: Log LogInfo :: ControlDevice ?i ?c :: ?t))
    with (publishes t) in Hx.
  unfold publishes in Hx. rewrite omap_app in Hx. fold publishes in Hx.
  apply elem_of_app in Hx as [Hx|Hx].
  - by apply sync_trace_publishes_active in Hx.
  - by apply not_elem_of_nil in Hx.
Qed.

Lemma X17_witness :
  outcome (SwingFan.getActive platform_accepting
             (final (SwingFan.setActive (CNumber 1) platform_accepting
                       (unit_with "False" "Auto" "Auto")))) = Returned INACTIVE.
Proof.
  apply (X17_swing_turn_on_off (CNumber 1) platform_accepting
           (unit_with "False" "Auto" "Auto")).
  reflexivity.
Defined.

(** X18. Writing the same value again: when a write returned and the same
    write is made again from the state it left, with its remote call
    accepted, the second write sends the same command once more (the
    remote call is never skipped), returns, publishes nothing and leaves
    the accessory exactly as the first write left it.  On both variants. *)
Theorem X18_same_write_again (v : string) (pf : Platform) (st : Accessory) :
  (let r1 := FanSpeedFan.setFanSpeed v pf st in
   let r2 := FanSpeedFan.setFanSpeed v pf (final r1) in
   outcome r1 = Returned tt → remote_calls_succeed pf (trace r2) →
   commands (trace r2) = commands (trace r1) ∧ outcome r2 = Returned tt ∧
   publishes (trace r2) = [] ∧ final r2 = final r1) ∧
  (let r1 := SwingFan.setVanePosition v pf st in
   let r2 := SwingFan.setVanePosition v pf (final r1) in
   outcome r1 = Returned tt → remote_calls_succeed pf (trace r2) →
   commands (trace r2) = commands (trace r1) ∧ outcome r2 = Returned tt ∧
   publishes (trace r2) = [] ∧ final r2 = final r1).
Proof.
  cbv zeta. split; intros H1 H2.
  - pose proof (H2 _ _ ltac:(rewrite fan_setFanSpeed_commands; apply list_elem_of_here)) as Hc.
    rewrite (fan_setFanSpeed_commands v pf (final _)), (fan_setFanSpeed_commands v pf st).
    rewrite (fan_setFanSpeed_full v pf (final _)). cbv zeta. rewrite Hc. clear Hc H2.
    revert H1. rewrite (fan_setFanSpeed_full v pf st). cbv zeta.
    destruct (controlDevice pf _ _); [discriminate|].
    destruct (_ !! "SetFanSpeed") as [old|] eqn:E; [|discriminate].
    intros _. run_fields.
    change (MELCloudAPI.settings (with_settings ?d ?l)) with l.
    change (MELCloudAPI.id (with_settings ?d ?l)) with (MELCloudAPI.id d).
    rewrite fan_command_rewritten, fan_written_target_rewritten.
    pose proof (fan_entry_parse v "SetFanSpeed" (MELCloudAPI.settings (device st))) as P.
    simpl in P. rewrite P, E. simpl.
    rewrite !sync_trace_fixed, !sync_value_idem.
    rewrite <- list_fmap_compose.
    rewrite (list_fmap_ext (fan_entry v ∘ fan_entry v) (fan_entry v))
      by (intros i s _; apply fan_entry_idem).
    done.
  - pose proof (H2 _ _ ltac:(rewrite swing_setVanePosition_commands; apply list_elem_of_here)) as Hc.
    rewrite (swing_setVanePosition_commands v pf (final _)),
      (swing_setVanePosition_commands v pf st).
    rewrite (swing_setVanePosition_full v pf (final _)). cbv zeta. rewrite Hc. clear Hc H2.
    revert H1. rewrite (swing_setVanePosition_full v pf st). cbv zeta.
    destruct (controlDevice pf _ _); [discriminate|].
    destruct (_ !! "VaneVerticalDirection") as [old|] eqn:E; [|discriminate].
    intros _. run_fields.
    change (MELCloudAPI.settings (with_settings ?d ?l)) with l.
    change (MELCloudAPI.id (with_settings ?d ?l)) with (MELCloudAPI.id d).
    assert (C : swing_command
                  (MELCloudAPI.parseSettings
                     (swing_entry v <$> MELCloudAPI.settings (device st))) v
                = swing_command
                    (MELCloudAPI.parseSettings (MELCloudAPI.settings (device st))) v).
    { unfold swing_command. by rewrite !swing_entry_parse. }
    rewrite C, swing_target_written.
    pose proof (swing_entry_parse v "VaneVerticalDirection"
                  (MELCloudAPI.settings (device st))) as P.
    simpl in P. rewrite P, E. simpl.
    rewrite !sync_trace_fixed, !sync_value_idem.
    rewrite <- list_fmap_compose.
    rewrite (list_fmap_ext (swing_entry v ∘ swing_entry v) (swing_entry v))
      by (intros i s _; apply swing_entry_idem).
    done.
Qed.

Lemma X18_witness :
  publishes (trace (FanSpeedFan.setFanSpeed "Two" platform_accepting
                      (final (FanSpeedFan.setFanSpeed "Two" platform_accepting
                                (unit_with "False" "Auto" "Auto"))))) = [].
Proof.
  apply (proj1 (X18_same_write_again "Two" platform_accepting
                  (unit_with "False" "Auto" "Auto"))).
  - reflexivity.
  - intros i cmd _. reflexivity.
Defined.
